(** * React SSR demo: the render server, its template, the hydration entry
      and the JSON route

    Sources embedded here:
    - [react_ssr/src/server/template.js]: [Template]
    - the shared [App] component with its [NotFound] page: [Shared]
    - the Express entry of the render server: [Server]
    - the browser entry that hydrates the page: [Client]
    - the [/api/hello] route handlers of the Next.js site: [ApiHello]
    - the components [Header], [Footer], [Home], [About] and [Counter],
      with the state transitions of the counter: [Pages]
    - [callApi] of the [ApiDemo] component, which calls the route: [ApiDemo]

    A JavaScript string is a [string] that holds the UTF-8 bytes of the
    text.  The calls the two entry files make on their platform (the clock,
    the console, [renderToString], [res.send], the DOM, [hydrateRoot]) are
    the operations of the effect language [JsProg.prog]; a [World] answers
    them, and a run records them.  [ReactDom] is a model of what React and
    its router do with the tree they are given, with the router's pattern
    matcher and the components that are not embedded as section variables.
    The URL and JSON parsers of the route handlers are section variables
    too.  [Reference] holds concrete instances of all of these.

    The development: the embedding, then facts about texts, then, per
    source file, the lemmas and the claims C1 to C10, then the claims at
    concrete inputs; then the further properties X1 to X10 of the template,
    the error page, the browser entry, the components, the counter and
    [callApi], and these at concrete inputs. *)

From Stdlib Require Import String Ascii List ZArith Lia Bool.
Import ListNotations.
Open Scope string_scope.
Open Scope nat_scope.
Set Warnings "-register-all".

(* ================================================================== *)
(** ** JavaScript strings *)

Module JsString.

(** The double quote and the line feed, as one-character strings. *)
Definition dq : string := String "034"%char EmptyString.
Definition LF : string := String "010"%char EmptyString.

(** [lines.join("\n")] *)
Fixpoint join (sep : string) (l : list string) : string :=
  match l with
  | [] => EmptyString
  | [x] => x
  | x :: rest => x ++ sep ++ join sep rest
  end.

Fixpoint srev_onto (s acc : string) : string :=
  match s with
  | EmptyString => acc
  | String c r => srev_onto r (String c acc)
  end.

Definition srev (s : string) : string := srev_onto s EmptyString.

(** *** [String.prototype.trim]

    White space and line terminators of ECMAScript, as UTF-8 byte
    sequences: TAB, LF, VT, FF, CR, SP; U+00A0; U+1680; U+2000..U+200A,
    U+2028, U+2029, U+202F; U+205F; U+3000; U+FEFF. *)

Definition isAsciiWs (c : ascii) : bool :=
  let n := nat_of_ascii c in
  ((9 <=? n) && (n <=? 13)) || (n =? 32).

Definition ws3 (b1 b2 b3 : nat) : bool :=
  match b1 with
  | 225 => (b2 =? 154) && (b3 =? 128)
  | 226 =>
      ((b2 =? 128) &&
         (((128 <=? b3) && (b3 <=? 138)) || (b3 =? 168) || (b3 =? 169) || (b3 =? 175)))
      || ((b2 =? 129) && (b3 =? 159))
  | 227 => (b2 =? 128) && (b3 =? 128)
  | 239 => (b2 =? 187) && (b3 =? 191)
  | _ => false
  end.

(** [stripWs s] is what follows the white-space character [s] starts with. *)
Definition stripWs (s : string) : option string :=
  match s with
  | EmptyString => None
  | String c r =>
      let b1 := nat_of_ascii c in
      if isAsciiWs c then Some r
      else if b1 =? 194 then
        match r with
        | String c2 r2 => if nat_of_ascii c2 =? 160 then Some r2 else None
        | EmptyString => None
        end
      else if (b1 =? 225) || (b1 =? 226) || (b1 =? 227) || (b1 =? 239) then
        match r with
        | String c2 (String c3 r3) =>
            if ws3 b1 (nat_of_ascii c2) (nat_of_ascii c3) then Some r3 else None
        | _ => None
        end
      else None
  end.

(** The same, read from the end of the text: [s] is reversed, so the last
    byte of the character comes first. *)
Definition isWsLastByte (n : nat) : bool :=
  (n =? 160) || ((128 <=? n) && (n <=? 138)) || (n =? 168) || (n =? 169)
  || (n =? 175) || (n =? 159) || (n =? 191).

Definition stripWsRev (s : string) : option string :=
  match s with
  | EmptyString => None
  | String c r =>
      let bn := nat_of_ascii c in
      if isAsciiWs c then Some r
      else if isWsLastByte bn then
        match r with
        | String c2 r2 =>
            if (bn =? 160) && (nat_of_ascii c2 =? 194) then Some r2
            else
              match r2 with
              | String c3 r3 =>
                  if ws3 (nat_of_ascii c3) (nat_of_ascii c2) bn then Some r3 else None
              | EmptyString => None
              end
        | EmptyString => None
        end
      else None
  end.

Fixpoint stripAll (strip : string -> option string) (fuel : nat) (s : string) : string :=
  match fuel with
  | O => s
  | S fuel' =>
      match strip s with
      | Some r => stripAll strip fuel' r
      | None => s
      end
  end.

Definition trimStart (s : string) : string := stripAll stripWs (String.length s) s.

Definition trimEnd (s : string) : string :=
  srev (stripAll stripWsRev (String.length s) (srev s)).

Definition trim (s : string) : string := trimEnd (trimStart s).

(** *** Searching a text *)

(** The number of positions of [s] at which [pat] occurs. *)
Fixpoint occurrences (pat s : string) : nat :=
  (if String.prefix pat s then 1 else 0)
  + match s with
    | EmptyString => 0
    | String _ r => occurrences pat r
    end.

(** [s.slice(n)] *)
Fixpoint drop (n : nat) (s : string) : string :=
  match n, s with
  | S m, String _ r => drop m r
  | _, _ => s
  end.

(** What follows the first occurrence of [pat] in [s]. *)
Fixpoint after (pat s : string) : option string :=
  if String.prefix pat s then Some (drop (String.length pat) s)
  else
    match s with
    | EmptyString => None
    | String _ r => after pat r
    end.

(** What precedes the first occurrence of [pat] in [s]. *)
Fixpoint before (pat s : string) : option string :=
  if String.prefix pat s then Some EmptyString
  else
    match s with
    | EmptyString => None
    | String c r =>
        match before pat r with
        | Some b => Some (String c b)
        | None => None
        end
    end.

(** The text between the first [opening] and the first [closing] after it. *)
Definition between (opening closing s : string) : option string :=
  match after opening s with
  | Some rest => before closing rest
  | None => None
  end.

Definition startsWith (s pat : string) : bool := String.prefix pat s.
Definition endsWith (s pat : string) : bool := String.prefix (srev pat) (srev s).

(** No character of [s] is [c]. *)
Fixpoint lacks (c : ascii) (s : string) : bool :=
  match s with
  | EmptyString => true
  | String d r => negb (Ascii.eqb c d) && lacks c r
  end.

(** [pat] and [s] differ at a position that both have. *)
Fixpoint mismatch (pat s : string) : bool :=
  match pat, s with
  | String a p, String b r => if Ascii.eqb a b then mismatch p r else true
  | _, _ => false
  end.

(** No occurrence of [pat] starts in [s], whatever text follows [s]. *)
Fixpoint clear (pat s : string) : bool :=
  match s with
  | EmptyString => true
  | String _ r => mismatch pat s && clear pat r
  end.

(** *** Numbers as text *)

Definition digit (n : Z) : string :=
  String (ascii_of_nat (48 + Z.to_nat (n mod 10))) EmptyString.

(** The last [width] decimal digits of [n], most significant first. *)
Fixpoint padded (width : nat) (n : Z) : string :=
  match width with
  | O => EmptyString
  | S w => padded w (n / 10) ++ digit n
  end.

Fixpoint digitsOf (fuel : nat) (n : Z) : string :=
  match fuel with
  | O => EmptyString
  | S f => if (n <? 10)%Z then digit n else digitsOf f (n / 10) ++ digit n
  end.

(** [String(n)] for an integer [n]. *)
Definition ofZ (n : Z) : string :=
  let m := Z.abs n in
  let body := digitsOf (S (Z.to_nat (Z.log2 m))) m in
  if (n <? 0)%Z then "-" ++ body else body.

(** [s.length]: the number of UTF-16 code units of the text.  A character
    of one to three bytes is one unit, a character of four bytes is two;
    continuation bytes count for nothing. *)
Fixpoint jsLength (s : string) : nat :=
  match s with
  | EmptyString => 0
  | String c r =>
      let b := nat_of_ascii c in
      (if (b <? 128) || ((192 <=? b) && (b <? 240)) then 1
       else if 240 <=? b then 2 else 0) + jsLength r
  end.

End JsString.

Import JsString.

(* ================================================================== *)
(** ** The clock: [Date] *)

Module JsDate.

Local Open Scope Z_scope.

(** A [Date] is its time value: milliseconds since 1970-01-01T00:00:00Z. *)
Record Date : Set := mkDate { getTime : Z }.

Definition msPerDay : Z := 86400000.

(** Year, month (1..12) and day of the month of a day number (days since
    the epoch), in the proleptic Gregorian calendar. *)
Definition civil (days : Z) : Z * Z * Z :=
  let z := days + 719468 in
  let era := z / 146097 in
  let doe := z - era * 146097 in
  let yoe := (doe - doe / 1460 + doe / 36524 - doe / 146096) / 365 in
  let doy := doe - (365 * yoe + yoe / 4 - yoe / 100) in
  let mp := (5 * doy + 2) / 153 in
  let d := doy - (153 * mp + 2) / 5 + 1 in
  let m := if mp <? 10 then mp + 3 else mp - 9 in
  (yoe + era * 400 + (if m <=? 2 then 1 else 0), m, d).

(** Four digits for the years 0..9999, a sign and six digits otherwise. *)
Definition isoYear (y : Z) : string :=
  if (0 <=? y) && (y <=? 9999) then padded 4 y
  else (if y <? 0 then "-" else "+") ++ padded 6 (Z.abs y).

(** [date.toISOString()]: YYYY-MM-DDTHH:mm:ss.sssZ *)
Definition toISOString (d : Date) : string :=
  let t := getTime d in
  let '(y, m, dd) := civil (t / msPerDay) in
  let ms := t mod msPerDay in
  isoYear y ++ "-" ++ padded 2 m ++ "-" ++ padded 2 dd ++ "T"
  ++ padded 2 (ms / 3600000) ++ ":" ++ padded 2 (ms / 60000 mod 60) ++ ":"
  ++ padded 2 (ms / 1000 mod 60) ++ "." ++ padded 3 (ms mod 1000) ++ "Z".

End JsDate.

Import JsDate.

(* ================================================================== *)
(** ** [react_ssr/src/server/template.js] *)

Module Template.

Definition defaultTitle : string := "React SSR Demo".

(** The template literal of [renderTemplate], one entry per source line.
    It has three interpolations: [title] (twice, in the head), [appHtml]
    (in the mount point) and the time stamp (in a comment after it). *)

Definition headLines (title : string) : list string :=
  [
    "<!DOCTYPE html>";
    "<html lang=" ++ dq ++ "zh-CN" ++ dq ++ ">";
    "<head>";
    "  <!--";
    "    【Meta 标签说明】";
    "    charset: 字符编码";
    "    viewport: 移动端适配关键设置";
    "    - width=device-width: 宽度等于设备宽度";
    "    - initial-scale=1.0: 初始缩放比例 1:1";
    "    - maximum-scale=1.0: 禁止用户缩放（可选）";
    "    - user-scalable=no: 禁止用户缩放（可选）";
    "  -->";
    "  <meta charset=" ++ dq ++ "UTF-8" ++ dq ++ ">";
    "  <meta name=" ++ dq ++ "viewport" ++ dq ++ " content=" ++ dq ++ "width=device-width, initial-scale=1.0, maximum-scale=1.0, user-scalable=no" ++ dq ++ ">";
    "  <meta http-equiv=" ++ dq ++ "X-UA-Compatible" ++ dq ++ " content=" ++ dq ++ "ie=edge" ++ dq ++ ">";
    "  ";
    "  <!--";
    "    【SEO 相关】";
    "    SSR 的一个重要优势是 SEO 友好";
    "    搜索引擎爬虫可以直接看到完整内容";
    "  -->";
    "  <meta name=" ++ dq ++ "description" ++ dq ++ " content=" ++ dq ++ "React SSR 同构渲染教学演示项目" ++ dq ++ ">";
    "  <meta name=" ++ dq ++ "keywords" ++ dq ++ " content=" ++ dq ++ "React, SSR, 同构, 服务端渲染, hydrate" ++ dq ++ ">";
    "  ";
    "  <!--";
    "    【Open Graph 标签】";
    "    用于社交媒体分享时的预览展示";
    "    SSR 可以动态设置这些标签";
    "  -->";
    "  <meta property=" ++ dq ++ "og:title" ++ dq ++ " content=" ++ dq ++ title ++ dq ++ ">";
    "  <meta property=" ++ dq ++ "og:description" ++ dq ++ " content=" ++ dq ++ "React SSR 同构渲染教学演示项目" ++ dq ++ ">";
    "  <meta property=" ++ dq ++ "og:type" ++ dq ++ " content=" ++ dq ++ "website" ++ dq ++ ">";
    "  ";
    "  <title>" ++ title ++ "</title>";
    "  ";
    "  <!--";
    "    【样式文件】";
    "    由 webpack.client.js 构建生成";
    "    放在 <head> 中确保样式先于内容加载";
    "    避免 FOUC（Flash of Unstyled Content）";
    "  -->";
    "  <link rel=" ++ dq ++ "stylesheet" ++ dq ++ " href=" ++ dq ++ "/styles.css" ++ dq ++ ">";
    "  ";
    "  <!--";
    "    【可选】预加载关键资源";
    "    <link rel=" ++ dq ++ "preload" ++ dq ++ " href=" ++ dq ++ "/bundle.js" ++ dq ++ " as=" ++ dq ++ "script" ++ dq ++ ">";
    "  -->";
    "</head>";
    "<body>";
    "  <!--";
    "    【React 应用挂载点】";
    "    ";
    "    这是 SSR 的核心部分：";
    "    - id=" ++ dq ++ "root" ++ dq ++ " 是 React 应用的挂载点";
    "    - 服务端渲染的 HTML 直接放在这里";
    "    - 客户端 hydrateRoot 会找到这个元素进行水合";
    "    ";
    "    【重要】";
    "    服务端渲染的内容必须与客户端首次渲染一致";
    "    否则会出现水合错误（Hydration Mismatch）";
    "  -->"
  ].

(** The opening tag of the mount point, and the element as the template
    writes it. *)
Definition rootTag : string := "<div id=" ++ dq ++ "root" ++ dq ++ ">".

Definition mountPoint (appHtml : string) : string := rootTag ++ appHtml ++ "</div>".

Definition rootLine (appHtml : string) : string := "  " ++ mountPoint appHtml.

Definition debugLines : list string :=
  [
    "  ";
    "  <!--";
    "    【调试信息】";
    "    这段注释在开发时有助于确认 SSR 是否生效";
    "    生产环境可以移除";
    "  -->"
  ].

Definition stampComment (stamp : string) : string :=
  "<!-- SSR rendered at: " ++ stamp ++ " -->".

Definition stampLine (stamp : string) : string := "  " ++ stampComment stamp.

Definition scriptLines : list string :=
  [
    "  ";
    "  <!--";
    "    【客户端 JavaScript】";
    "    ";
    "    由 webpack.client.js 构建生成";
    "    放在 body 底部的原因：";
    "    1. 不阻塞 HTML 解析和渲染";
    "    2. 用户可以更快看到内容";
    "    3. DOM 已准备好，可以直接操作";
    "    ";
    "    【执行流程】";
    "    1. 浏览器解析到这个 script 标签";
    "    2. 下载 bundle.js";
    "    3. 执行 bundle.js";
    "    4. React 调用 hydrateRoot 进行水合";
    "    5. 页面变得可交互";
    "  -->";
    "  <script src=" ++ dq ++ "/bundle.js" ++ dq ++ "></script>";
    "</body>";
    "</html>"
  ].

Definition templateLines (appHtml title stamp : string) : list string :=
  (headLines title ++ [rootLine appHtml] ++ debugLines ++ [stampLine stamp] ++ scriptLines)%list.

(** The literal opens with a line break after the back quote and closes
    with one before it. *)
Definition templateLiteral (appHtml title stamp : string) : string :=
  LF ++ join LF (templateLines appHtml title stamp) ++ LF.

(** [renderTemplate({ appHtml, title = 'React SSR Demo' })], evaluated when
    the clock reads [now] (the literal calls [new Date().toISOString()]). *)
Definition renderTemplate (appHtml : string) (title : option string) (now : Date) : string :=
  let title := match title with Some t => t | None => defaultTitle end in
  trim (templateLiteral appHtml title (toISOString now)).

(** The parts of the document around the mount point and the time stamp. *)
Definition docHead (title : string) : string := join LF (headLines title) ++ LF ++ "  ".
Definition stampGap : string := LF ++ join LF debugLines ++ LF ++ "  ".
Definition docTail : string := LF ++ join LF scriptLines.

(** The document: head, mount point, stamp comment and tail, in this order. *)
Definition htmlDocument (appHtml title stamp : string) : string :=
  docHead title ++ mountPoint appHtml ++ stampGap ++ stampComment stamp ++ docTail.

(** *** Reading a document back *)

(** The text of the [title] element. *)
Definition titleText (doc : string) : option string :=
  between "<title>" "</title>" doc.

(** The content of a [div] whose opening tag has just been read: the text
    up to the closing tag that matches it, nested [div]s counted. *)
Fixpoint divContent (depth : nat) (s : string) : option string :=
  match s with
  | EmptyString => None
  | String c r =>
      if String.prefix "</div>" s then
        match depth with
        | O => Some EmptyString
        | S d => option_map (String c) (divContent d r)
        end
      else if String.prefix "<div" s then option_map (String c) (divContent (S depth) r)
      else option_map (String c) (divContent depth r)
  end.

(** The nesting depth after [s] is read at depth [depth]; [None] when [s]
    closes a [div] that it did not open. *)
Fixpoint divDepth (depth : nat) (s : string) : option nat :=
  match s with
  | EmptyString => Some depth
  | String c r =>
      if String.prefix "</div>" s then
        match depth with
        | O => None
        | S d => divDepth d r
        end
      else if String.prefix "<div" s then divDepth (S depth) r
      else divDepth depth r
  end.

(** Markup whose [div]s are closed as they were opened: what a render
    returns. *)
Definition divBalanced (markup : string) : Prop := divDepth 0 markup = Some 0.

(** The inner content of the mount point of a document. *)
Definition mountPointContent (doc : string) : option string :=
  match after rootTag doc with
  | Some rest => divContent 0 rest
  | None => None
  end.


End Template.

Import Template.

(* ================================================================== *)
(** ** React elements and the shared [App] component *)

Module React.

(** An [Error] object, as far as the program reads it.  What a call
    throws is taken to be such an object. *)
Record Error : Set := mkError { message : string }.

(** The result of a call that may throw. *)
Inductive outcome (A : Type) : Type :=
  | Returned (a : A)
  | Thrown (e : Error).
Arguments Returned {A} a.
Arguments Thrown {A} e.

(** A prop of a host element: a string, or a style object. *)
Inductive prop : Set :=
  | Str (s : string)
  | Style (declarations : list (string * string)).

(** The components whose JSX is not embedded: they are rendered by the
    [renderView] a render is given. *)
Inductive View : Set := Header | Footer | Home | About | Counter.

(** What [React.createElement] and JSX build.  [Routes] lists its [Route]
    children as pairs of [path] and [element]. *)
Inductive element : Set :=
  | host (tag : string) (props : list (string * prop)) (children : list element)
  | text (s : string)
  | component (v : View)
  | Routes (routes : list (string * element))
  | StaticRouter (location : string) (child : element)
  | BrowserRouter (child : element).

(** The router's location object. *)
Record Location : Set := mkLocation { pathname : string; search : string; hash : string }.

(** What a render can observe besides the tree it is given: the browser's
    [window.location] (absent on the server), the clock and the random
    source. *)
Record Environment : Set :=
  mkEnvironment { window : option Location; time : Z; entropy : Z }.

End React.

Import React.

Module Shared.

(** [function NotFound()]: the 404 page.  A component without props or
    hooks is embedded as the element it returns. *)
Definition NotFound : element :=
  host "div" [("className", Str "page")] [
    host "div" [("className", Str "page__card"); ("style", Style [("textAlign", "center")])] [
      host "h2" [("className", Str "page__title")] [text "😅 404"];
      host "p" [("className", Str "page__text")] [text "页面不存在"]
    ]
  ].

(** The route table of [App], in the order it is written. *)
Definition routes : list (string * element) :=
  [ ("/", component Home);
    ("/about", component About);
    ("/counter", component Counter);
    ("*", NotFound) ].

(** [function App()] *)
Definition App : element :=
  host "div" [("className", Str "app")] [
    component Header;
    host "main" [] [ Routes routes ];
    component Footer
  ].

End Shared.

Import Shared.

(* ================================================================== *)
(** ** The effects of the two entry files *)

Module JsProg.

(** A DOM element, as far as the entry file handles it. *)
Record Node : Set := mkNode { nodeId : string; innerHTML : string }.

(** A program over the platform: each constructor is one call, with the
    rest of the program waiting for its result. *)
Inductive prog (A : Type) : Type :=
  | Ret (a : A)
  | DateNow (k : Z -> prog A)
  | NewDate (k : Date -> prog A)
  | ConsoleLog (msg : string) (k : prog A)
  | ConsoleError (msg : string) (e : Error) (k : prog A)
  | RenderToString (el : element) (k : outcome string -> prog A)
  | ResSend (status : nat) (body : string) (k : prog A)
  | GetElementById (id : string) (k : option Node -> prog A)
  | HydrateRoot (container : option Node) (el : element) (k : outcome unit -> prog A).
Arguments Ret {A} a.
Arguments DateNow {A} k.
Arguments NewDate {A} k.
Arguments ConsoleLog {A} msg k.
Arguments ConsoleError {A} msg e k.
Arguments RenderToString {A} el k.
Arguments ResSend {A} status body k.
Arguments GetElementById {A} id k.
Arguments HydrateRoot {A} container el k.

Fixpoint bind {A B : Type} (p : prog A) (f : A -> prog B) : prog B :=
  match p with
  | Ret a => f a
  | DateNow k => DateNow (fun t => bind (k t) f)
  | NewDate k => NewDate (fun d => bind (k d) f)
  | ConsoleLog msg k => ConsoleLog msg (bind k f)
  | ConsoleError msg e k => ConsoleError msg e (bind k f)
  | RenderToString el k => RenderToString el (fun r => bind (k r) f)
  | ResSend status body k => ResSend status body (bind k f)
  | GetElementById id k => GetElementById id (fun n => bind (k n) f)
  | HydrateRoot c el k => HydrateRoot c el (fun r => bind (k r) f)
  end.

Declare Scope prog_scope.
Delimit Scope prog_scope with prog.
Notation "x <- p ;; q" := (bind p (fun x => q))
  (at level 61, p at next level, right associativity) : prog_scope.
Notation "p ;; q" := (bind p (fun _ => q))
  (at level 61, right associativity) : prog_scope.

Definition dateNow : prog Z := DateNow Ret.
Definition newDate : prog Date := NewDate Ret.
Definition consoleLog (msg : string) : prog unit := ConsoleLog msg (Ret tt).
Definition consoleError (msg : string) (e : Error) : prog unit := ConsoleError msg e (Ret tt).
Definition renderToString (el : element) : prog (outcome string) := RenderToString el Ret.
Definition resSend (status : nat) (body : string) : prog unit := ResSend status body (Ret tt).
Definition getElementById (id : string) : prog (option Node) := GetElementById id Ret.
Definition hydrateRoot (c : option Node) (el : element) : prog (outcome unit) :=
  HydrateRoot c el Ret.

(** The platform a program runs on.  [clock n] is the time value the clock
    shows at the [n]-th call of the run. *)
Record World : Type := mkWorld {
  clock : nat -> Z;
  render : element -> outcome string;
  document : string -> option Node;
  hydrate : option Node -> element -> outcome unit
}.

(** One call and its result. *)
Inductive event : Type :=
  | EvDateNow (t : Z)
  | EvNewDate (d : Date)
  | EvLog (msg : string)
  | EvError (msg : string) (e : Error)
  | EvRender (el : element) (r : outcome string)
  | EvSend (status : nat) (body : string)
  | EvGetElementById (id : string) (r : option Node)
  | EvHydrateRoot (container : option Node) (el : element) (r : outcome unit).

(** [run w n p]: the calls [p] makes on [w], in order, when it starts as
    the [n]-th call, and what it returns. *)
Fixpoint run {A : Type} (w : World) (n : nat) (p : prog A) : list event * A :=
  match p with
  | Ret a => ([], a)
  | DateNow k =>
      let t := clock w n in
      let '(tr, a) := run w (S n) (k t) in (EvDateNow t :: tr, a)
  | NewDate k =>
      let d := mkDate (clock w n) in
      let '(tr, a) := run w (S n) (k d) in (EvNewDate d :: tr, a)
  | ConsoleLog msg k =>
      let '(tr, a) := run w (S n) k in (EvLog msg :: tr, a)
  | ConsoleError msg e k =>
      let '(tr, a) := run w (S n) k in (EvError msg e :: tr, a)
  | RenderToString el k =>
      let r := render w el in
      let '(tr, a) := run w (S n) (k r) in (EvRender el r :: tr, a)
  | ResSend status body k =>
      let '(tr, a) := run w (S n) k in (EvSend status body :: tr, a)
  | GetElementById id k =>
      let r := document w id in
      let '(tr, a) := run w (S n) (k r) in (EvGetElementById id r :: tr, a)
  | HydrateRoot c el k =>
      let r := hydrate w c el in
      let '(tr, a) := run w (S n) (k r) in (EvHydrateRoot c el r :: tr, a)
  end.

Definition trace {A : Type} (w : World) (p : prog A) : list event := fst (run w 0 p).

(** The responses a run sent, the render calls it made, and what it wrote
    to the console. *)
Fixpoint sent (tr : list event) : list (nat * string) :=
  match tr with
  | [] => []
  | EvSend status body :: rest => (status, body) :: sent rest
  | _ :: rest => sent rest
  end.

Fixpoint renderCalls (tr : list event) : list element :=
  match tr with
  | [] => []
  | EvRender el _ :: rest => el :: renderCalls rest
  | _ :: rest => renderCalls rest
  end.

Fixpoint hydrateCalls (tr : list event) : list (option Node * element) :=
  match tr with
  | [] => []
  | EvHydrateRoot c el _ :: rest => (c, el) :: hydrateCalls rest
  | _ :: rest => hydrateCalls rest
  end.

Fixpoint logged (tr : list event) : list string :=
  match tr with
  | [] => []
  | EvLog msg :: rest => msg :: logged rest
  | _ :: rest => logged rest
  end.

Fixpoint errorsLogged (tr : list event) : list (string * Error) :=
  match tr with
  | [] => []
  | EvError msg e :: rest => (msg, e) :: errorsLogged rest
  | _ :: rest => errorsLogged rest
  end.

End JsProg.

Import JsProg.

(* ================================================================== *)
(** ** Rendering an element tree to markup

    [ReactDOMServer.renderToString] and the first render of [hydrateRoot]
    run the same components on the same tree; they differ in the router
    that wraps it and in the environment.  The pattern matcher of the router
    and the components that are not embedded are variables of the model. *)

Module ReactDom.

(** *** The router's reading of a URL *)

(** [s.indexOf(c)] *)
Fixpoint indexOf (c : ascii) (s : string) : option nat :=
  match s with
  | EmptyString => None
  | String d r =>
      if Ascii.eqb c d then Some 0
      else match indexOf c r with Some i => Some (S i) | None => None end
  end.

(** Cuts [path] at the first [c]: what precedes it, and the rest from [c]
    on (empty when [c] does not occur). *)
Definition cutAt (c : ascii) (path : string) : string * string :=
  match indexOf c path with
  | Some i => (substring 0 i path, substring i (String.length path) path)
  | None => (path, EmptyString)
  end.

(** [parsePath]: the hash is what starts at the first '#', the search what
    starts at the first '?' before it, the pathname what precedes both. *)
Definition parsePath (path : string) : Location :=
  let '(path1, h) := cutAt "#"%char path in
  let '(path2, q) := cutAt "?"%char path1 in
  mkLocation path2 q h.

(** The location [<StaticRouter location={url}>] provides: an empty
    pathname becomes "/". *)
Definition staticLocation (url : string) : Location :=
  let l := parsePath url in
  mkLocation (if String.eqb (pathname l) EmptyString then "/" else pathname l)
             (search l) (hash l).

(** *** Markup of host elements *)

Definition escapeChar (c : ascii) : string :=
  match nat_of_ascii c with
  | 38 => "&amp;"
  | 60 => "&lt;"
  | 62 => "&gt;"
  | 34 => "&quot;"
  | 39 => "&#x27;"
  | _ => String c EmptyString
  end.

Fixpoint escapeHtml (s : string) : string :=
  match s with
  | EmptyString => EmptyString
  | String c r => escapeChar c ++ escapeHtml r
  end.

(** [textAlign] becomes [text-align]. *)
Fixpoint hyphenate (s : string) : string :=
  match s with
  | EmptyString => EmptyString
  | String c r =>
      let n := nat_of_ascii c in
      if (65 <=? n) && (n <=? 90)
      then String "-"%char (String (ascii_of_nat (n + 32)) (hyphenate r))
      else String c (hyphenate r)
  end.

Definition styleText (declarations : list (string * string)) : string :=
  join ";" (map (fun '(k, v) => hyphenate k ++ ":" ++ v) declarations).

Definition attributeName (name : string) : string :=
  if String.eqb name "className" then "class" else name.

Definition renderProp (p : string * prop) : string :=
  let '(name, v) := p in
  " " ++ attributeName name ++ "=" ++ dq
  ++ escapeHtml (match v with Str s => s | Style d => styleText d end) ++ dq.

Definition renderProps (props : list (string * prop)) : string :=
  String.concat EmptyString (map renderProp props).

Definition isText (e : element) : bool :=
  match e with text _ => true | _ => false end.

Section Render.

Variable matchPath : string -> string -> bool.
Variable renderView : View -> option Location -> Environment -> outcome string.
Variable env : Environment.

(** [renderElement loc e]: the markup of [e] under the router context [loc]
    ([None] outside any router).  [Routes] renders the element of the first
    route whose pattern matches the pathname; the router ranks its branches
    before matching, and in the table of [App] the static patterns exclude
    one another and all precede the splat, as they do by rank. *)
Fixpoint renderElement (loc : option Location) (e : element) {struct e} : outcome string :=
  match e with
  | text s => Returned (escapeHtml s)
  | host tag props children =>
      let inner :=
        (fix renderAll (prevText : bool) (l : list element) {struct l} : outcome string :=
           match l with
           | [] => Returned EmptyString
           | c :: rest =>
               match renderElement loc c with
               | Thrown err => Thrown err
               | Returned m =>
                   match renderAll (isText c) rest with
                   | Thrown err => Thrown err
                   | Returned ms =>
                       Returned ((if prevText && isText c then "<!-- -->" else EmptyString)
                                 ++ m ++ ms)
                   end
               end
           end) false children in
      match inner with
      | Thrown err => Thrown err
      | Returned m =>
          Returned ("<" ++ tag ++ renderProps props ++ ">" ++ m ++ "</" ++ tag ++ ">")
      end
  | component v => renderView v loc env
  | Routes routes =>
      match loc with
      | None => Thrown (mkError "useRoutes() may be used only in the context of a <Router> component.")
      | Some l =>
          (fix select (rs : list (string * element)) {struct rs} : outcome string :=
             match rs with
             | [] => Returned EmptyString
             | (path, el) :: rest =>
                 if matchPath path (pathname l) then renderElement loc el else select rest
             end) routes
      end
  | StaticRouter url child => renderElement (Some (staticLocation url)) child
  | BrowserRouter child =>
      match window env with
      | Some l => renderElement (Some l) child
      | None => Thrown (mkError "window is not defined")
      end
  end.

(** A render starts outside any router. *)
Definition renderRoot (e : element) : outcome string := renderElement None e.

(** The page [Routes] selects from the table of [App], as markup; the 404
    page is given by its markup [notFound]. *)
Definition selected (notFound : string) (l : Location) : outcome string :=
  if matchPath "/" (pathname l) then renderView Home (Some l) env
  else if matchPath "/about" (pathname l) then renderView About (Some l) env
  else if matchPath "/counter" (pathname l) then renderView Counter (Some l) env
  else if matchPath "*" (pathname l) then Returned notFound
  else Returned EmptyString.

End Render.

(** The two environments of an isomorphic page: the server has no window;
    the browser's window is at [l]. *)
Definition serverEnv (t r : Z) : Environment := mkEnvironment None t r.
Definition browserEnv (l : Location) (t r : Z) : Environment := mkEnvironment (Some l) t r.

(** The markup of the 404 page, and of [App] around the markup of its
    header, of the page its router selects, and of its footer. *)
Definition notFoundMarkup : string :=
  "<div class=" ++ dq ++ "page" ++ dq ++ ">"
  ++ "<div class=" ++ dq ++ "page__card" ++ dq ++ " style=" ++ dq ++ "text-align:center" ++ dq ++ ">"
  ++ "<h2 class=" ++ dq ++ "page__title" ++ dq ++ ">😅 404</h2>"
  ++ "<p class=" ++ dq ++ "page__text" ++ dq ++ ">页面不存在</p>"
  ++ "</div></div>".

Definition appMarkup (header page footer : string) : string :=
  "<div class=" ++ dq ++ "app" ++ dq ++ ">" ++ header
  ++ "<main>" ++ page ++ "</main>" ++ footer ++ "</div>".





End ReactDom.

Import ReactDom.

(* ================================================================== *)
(** ** The render server: the Express entry file *)

Module Server.

(** The request, as far as the handler reads it. *)
Record Request : Set := mkRequest { url : string }.

Definition pageTitle : string := "React SSR 教学演示".

(** The template literal of the [catch] block, with [error.message]
    interpolated; it is sent as written, without [trim]. *)
Definition errorPage (msg : string) : string :=
  join LF [
    EmptyString;
    "      <!DOCTYPE html>";
    "      <html>";
    "        <head>";
    "          <meta charset=" ++ dq ++ "UTF-8" ++ dq ++ ">";
    "          <title>服务器错误</title>";
    "        </head>";
    "        <body>";
    "          <h1>服务器渲染错误</h1>";
    "          <pre>" ++ msg ++ "</pre>";
    "        </body>";
    "      </html>";
    "    "
  ].

(** The fixed text of the error page before and after the message. *)
Definition errorPageHead : string :=
  join LF [
    EmptyString;
    "      <!DOCTYPE html>";
    "      <html>";
    "        <head>";
    "          <meta charset=" ++ dq ++ "UTF-8" ++ dq ++ ">";
    "          <title>服务器错误</title>";
    "        </head>";
    "        <body>";
    "          <h1>服务器渲染错误</h1>";
    "          <pre>"
  ].

Definition errorPageTail : string :=
  join LF [
    "</pre>";
    "        </body>";
    "      </html>";
    "    "
  ].

Local Open Scope prog_scope.

(** [app.get('*', (req, res) => { ... })].  The only call of the [try]
    block that can throw is the render; [renderTemplate] reads the clock
    for its time stamp. *)
Definition handle (req : Request) : prog unit :=
  startTime <- dateNow ;;
  consoleLog (LF ++ "📥 收到请求: " ++ url req) ;;
  consoleLog "🔄 开始服务端渲染..." ;;
  r <- renderToString (StaticRouter (url req) App) ;;
  match r with
  | Returned appHtml =>
      endTime <- dateNow ;;
      let renderTime := (endTime - startTime)%Z in
      consoleLog ("✅ 渲染完成，耗时: " ++ ofZ renderTime ++ "ms") ;;
      consoleLog ("📝 HTML 长度: " ++ ofZ (Z.of_nat (jsLength appHtml)) ++ " 字符") ;;
      now <- newDate ;;
      let fullHtml := renderTemplate appHtml (Some pageTitle) now in
      resSend 200 fullHtml ;;
      consoleLog ("📤 响应已发送" ++ LF)
  | Thrown error =>
      consoleError "❌ SSR 渲染错误:" error ;;
      resSend 500 (errorPage (message error))
  end.

End Server.

(* ================================================================== *)
(** ** The browser entry: hydration *)

Module Client.

(** ['='.repeat(50)] *)
Fixpoint repeat (s : string) (n : nat) : string :=
  match n with
  | O => EmptyString
  | S m => s ++ repeat s m
  end.

Local Open Scope prog_scope.

(** The module body.  An exception of [hydrateRoot] is not caught: the
    evaluation of the module ends with it. *)
Definition bootstrap : prog (outcome unit) :=
  container <- getElementById "root" ;;
  r <- hydrateRoot container (BrowserRouter App) ;;
  match r with
  | Thrown error => Ret (Thrown error)
  | Returned _ =>
      consoleLog (repeat "=" 50) ;;
      consoleLog "🎉 React 水合（Hydration）完成！" ;;
      consoleLog (repeat "=" 50) ;;
      consoleLog (LF ++ "【水合过程说明】") ;;
      consoleLog ("1. 找到 id=" ++ dq ++ "root" ++ dq ++ " 的 DOM 元素") ;;
      consoleLog "2. 复用服务端渲染的 HTML" ;;
      consoleLog "3. 绑定事件处理器" ;;
      consoleLog "4. 执行 useEffect 副作用" ;;
      consoleLog ("5. 页面现在完全可交互！" ++ LF) ;;
      Ret (Returned tt)
  end.

End Client.

(* ================================================================== *)
(** ** The [/api/hello] route handlers *)

Module ApiHello.

(** A JSON value.  A number is kept as its literal. *)
Inductive json : Set :=
  | JNull
  | JBool (b : bool)
  | JNumber (literal : string)
  | JString (s : string)
  | JArray (items : list json)
  | JObject (fields : list (string * json)).

(** [o.key], for an object [o]. *)
Fixpoint lookup (key : string) (fields : list (string * json)) : option json :=
  match fields with
  | [] => None
  | (k, v) :: rest => if String.eqb k key then Some v else lookup key rest
  end.

Definition field (key : string) (v : json) : option json :=
  match v with
  | JObject fields => lookup key fields
  | _ => None
  end.

(** [searchParams.get(name)]: the value of the first pair named [name]. *)
Fixpoint get (name : string) (params : list (string * string)) : option string :=
  match params with
  | [] => None
  | (k, v) :: rest => if String.eqb k name then Some v else get name rest
  end.

(** [v || d] for a string or null [v]: null and the empty string are falsy. *)
Definition orElse (v : option string) (d : string) : string :=
  match v with
  | Some s => if String.eqb s EmptyString then d else s
  | None => d
  end.

Record Request : Set := mkRequest { url : string; body : string }.

(** What [Response.json(data, { status })] builds; the status is 200 when
    none is given. *)
Record Response : Set := mkResponse { status : nat; payload : json }.

Definition Response_json (data : json) (init : option nat) : Response :=
  mkResponse (match init with Some st => st | None => 200 end) data.

(** The body of the example request: the text of an object with one
    member, [name], whose value is the string [test]. *)
Definition nameTestBody : string :=
  "{" ++ dq ++ "name" ++ dq ++ ":" ++ dq ++ "test" ++ dq ++ "}".

Section Handlers.

(** [new URL(u).searchParams], as its list of decoded pairs, and
    [request.json()]: the parsed body, or [None] when the promise rejects
    because the body is not JSON. *)
Variable searchParamsOf : string -> list (string * string).
Variable parseJson : string -> option json.

(** [export async function GET(request)], when the clock reads [now]. *)
Definition GET (request : Request) (now : Date) : Response :=
  let searchParams := searchParamsOf (url request) in
  let name := orElse (get "name" searchParams) "World" in
  Response_json
    (JObject [
       ("message", JString ("Hello, " ++ name ++ "!"));
       ("timestamp", JString (toISOString now));
       ("method", JString "GET");
       ("description", JString "这是一个 Next.js API Route 示例")
     ])
    None.

(** [export async function POST(request)], when the clock reads [now]. *)
Definition POST (request : Request) (now : Date) : Response :=
  match parseJson (body request) with
  | Some parsed =>
      let result :=
        JObject [
          ("received", parsed);
          ("processed", JBool true);
          ("timestamp", JString (toISOString now));
          ("method", JString "POST")
        ] in
      Response_json result (Some 201)
  | None =>
      Response_json (JObject [("error", JString "无效的 JSON 数据")]) (Some 400)
  end.

End Handlers.

End ApiHello.

(* ================================================================== *)
(** ** Reference instances of the platform

    Concrete stand-ins for what the models above take as variables.  The
    theorems hold for every instance; these are the ones the examples run. *)

Module Reference.

(** *** The router's pattern matcher, for static patterns and the splat:
    letters compare without case, trailing slashes are ignored, and the
    splat matches every pathname that starts with a slash. *)

Definition lowerChar (c : ascii) : ascii :=
  let n := nat_of_ascii c in
  if (65 <=? n) && (n <=? 90) then ascii_of_nat (n + 32) else c.

Fixpoint lower (s : string) : string :=
  match s with
  | EmptyString => EmptyString
  | String c r => String (lowerChar c) (lower r)
  end.

Fixpoint dropSlashes (s : string) : string :=
  match s with
  | String "/"%char r => dropSlashes r
  | _ => s
  end.

Definition stripTrailingSlashes (s : string) : string := srev (dropSlashes (srev s)).

Definition matchPath (pattern pathname : string) : bool :=
  if String.eqb pattern "*" then startsWith pathname "/"
  else
    startsWith pathname "/"
    && String.eqb (lower (stripTrailingSlashes pathname))
                  (lower (stripTrailingSlashes pattern)).

(** *** The components that are not embedded *)

(** [Footer.jsx] *)
Definition FooterElement : element :=
  host "footer" [("className", Str "footer")] [
    host "p" [("className", Str "footer__text")] [
      text "© 2024 ";
      host "span" [("className", Str "footer__highlight")] [text "React SSR 教学项目"]
    ];
    host "p" [("className", Str "footer__text")] [text "演示 React 18 同构渲染核心原理"]
  ].

(** [Header]: the title and one link per page; the link of the current
    pathname carries the active class. *)
Definition navItems : list (string * string) :=
  [("/", "首页"); ("/about", "关于"); ("/counter", "计数器")].

Definition HeaderElement (current : string) : element :=
  host "header" [("className", Str "header")] [
    host "h1" [("className", Str "header__title")] [text "🚀 React SSR 教学演示"];
    host "nav" [("className", Str "header__nav")]
      (map (fun '(path, label) =>
              host "a"
                [("className",
                  Str ("header__nav-link "
                       ++ (if String.eqb current path then "header__nav-link--active"
                           else EmptyString)));
                 ("href", Str path)]
                [text label])
           navItems)
  ].

(** The pages stand for themselves by their outer element. *)
Definition pageElement (name : string) : element :=
  host "div" [("className", Str "page"); ("data-page", Str name)] [].

Definition noView (v : View) (loc : option Location) (env : Environment) : outcome string :=
  Thrown (mkError "not rendered").

Definition renderView (v : View) (loc : option Location) (env : Environment) : outcome string :=
  match loc with
  | None => Thrown (mkError "useLocation() may be used only in the context of a <Router> component.")
  | Some l =>
      renderElement matchPath noView env loc
        match v with
        | Header => HeaderElement (pathname l)
        | Footer => FooterElement
        | Home => pageElement "home"
        | About => pageElement "about"
        | Counter => pageElement "counter"
        end
  end.


(** A header that prints the time of its render: not a pure view. *)
Definition clockHeader (v : View) (loc : option Location) (env : Environment) : outcome string :=
  match v with
  | Header => Returned ("<header>" ++ ofZ (time env) ++ "</header>")
  | _ => renderView v loc env
  end.

(** *** Worlds *)

(** The hydration primitive refuses a missing container and attaches to a
    present one. *)
Definition hydrate (container : option Node) (el : element) : outcome unit :=
  match container with
  | Some _ => Returned tt
  | None => Thrown (mkError "Target container is not a DOM element.")
  end.

(** A clock that advances one millisecond per call. *)
Definition tick (start : Z) (n : nat) : Z := (start + Z.of_nat n)%Z.

(** A server at time [start] whose React renders with [views]. *)
Definition server (views : View -> option Location -> Environment -> outcome string)
    (start : Z) : World :=
  mkWorld (tick start) (renderRoot matchPath views (serverEnv start 0))
          (fun _ => None) hydrate.

(** A browser whose document holds the elements [nodes]. *)
Definition browser (nodes : list Node) (start : Z) : World :=
  mkWorld (tick start) (fun _ => Thrown (mkError "not a server"))
          (fun id => find (fun n => String.eqb (nodeId n) id) nodes) hydrate.

(** *** The query of a URL *)

Fixpoint splitOn (c : ascii) (s : string) : list string :=
  match s with
  | EmptyString => [EmptyString]
  | String d r =>
      if Ascii.eqb c d then EmptyString :: splitOn c r
      else
        match splitOn c r with
        | x :: rest => String d x :: rest
        | [] => [String d EmptyString]
        end
  end.

Definition hexValue (c : ascii) : option nat :=
  let n := nat_of_ascii c in
  if (48 <=? n) && (n <=? 57) then Some (n - 48)
  else if (65 <=? n) && (n <=? 70) then Some (n - 55)
  else if (97 <=? n) && (n <=? 102) then Some (n - 87)
  else None.

(** Form decoding: '+' is a space, %XX is the byte XX. *)
Fixpoint formDecode (s : string) : string :=
  match s with
  | EmptyString => EmptyString
  | String c r =>
      if Ascii.eqb c "+"%char then String " "%char (formDecode r)
      else
        match c, r with
        | "%"%char, String h1 (String h2 r') =>
            match hexValue h1, hexValue h2 with
            | Some a, Some b => String (ascii_of_nat (16 * a + b)) (formDecode r')
            | _, _ => String c (formDecode r)
            end
        | _, _ => String c (formDecode r)
        end
  end.

Definition searchParamsOf (url : string) : list (string * string) :=
  let '(noHash, _) := cutAt "#"%char url in
  let '(_, q) := cutAt "?"%char noHash in
  let query := substring 1 (String.length q) q in
  map (fun piece =>
         let '(k, v) := cutAt "="%char piece in
         (formDecode k, formDecode (substring 1 (String.length v) v)))
      (filter (fun piece => negb (String.eqb piece EmptyString)) (splitOn "&"%char query)).

(** *** A JSON parser: objects, arrays, strings with the one-letter
    escapes, the three literals and numbers kept as written. *)

Import ApiHello.

Fixpoint skipWs (s : string) : string :=
  match s with
  | String c r =>
      let n := nat_of_ascii c in
      if (n =? 32) || (n =? 9) || (n =? 10) || (n =? 13) then skipWs r else s
  | EmptyString => s
  end.

(** The characters of a string literal after its opening quote. *)
Fixpoint stringBody (s : string) : option (string * string) :=
  match s with
  | EmptyString => None
  | String c r =>
      match nat_of_ascii c with
      | 34 => Some (EmptyString, r)
      | 92 =>
          match r with
          | String e r' =>
              let unescaped :=
                match nat_of_ascii e with
                | 34 => Some "034"%char
                | 92 => Some "092"%char
                | 47 => Some "/"%char
                | 98 => Some "008"%char
                | 102 => Some "012"%char
                | 110 => Some "010"%char
                | 114 => Some "013"%char
                | 116 => Some "009"%char
                | _ => None
                end in
              match unescaped, stringBody r' with
              | Some u, Some (rest, tail) => Some (String u rest, tail)
              | _, _ => None
              end
          | EmptyString => None
          end
      | n =>
          if n <? 32 then None
          else
            match stringBody r with
            | Some (rest, tail) => Some (String c rest, tail)
            | None => None
            end
      end
  end.

Definition isNumberChar (c : ascii) : bool :=
  let n := nat_of_ascii c in
  ((48 <=? n) && (n <=? 57)) || (n =? 45) || (n =? 43) || (n =? 46) || (n =? 101) || (n =? 69).

Fixpoint numberChars (s : string) : string * string :=
  match s with
  | String c r =>
      if isNumberChar c then let '(d, tail) := numberChars r in (String c d, tail)
      else (EmptyString, s)
  | EmptyString => (EmptyString, s)
  end.

Definition isDigit (c : ascii) : bool :=
  let n := nat_of_ascii c in (48 <=? n) && (n <=? 57).

(** An optional minus sign and digits, without a leading zero before
    another digit. *)
Definition wellFormedInteger (lit : string) : bool :=
  let digits := match lit with String "-"%char r => r | _ => lit end in
  match digits with
  | EmptyString => false
  | String "0"%char (String _ _) => false
  | _ => (fix all (s : string) : bool :=
            match s with
            | EmptyString => true
            | String c r => isDigit c && all r
            end) digits
  end.

Definition asArray (o : option (list json * string)) : option (json * string) :=
  match o with Some (vs, tail) => Some (JArray vs, tail) | None => None end.

Definition asObject (o : option (list (string * json) * string)) : option (json * string) :=
  match o with Some (kvs, tail) => Some (JObject kvs, tail) | None => None end.

Fixpoint value (fuel : nat) (s : string) {struct fuel} : option (json * string) :=
  match fuel with
  | O => None
  | S fuel' =>
      let s := skipWs s in
      if String.prefix "null" s then Some (JNull, substring 4 (String.length s) s)
      else if String.prefix "true" s then Some (JBool true, substring 4 (String.length s) s)
      else if String.prefix "false" s then Some (JBool false, substring 5 (String.length s) s)
      else
        match s with
        | EmptyString => None
        | String c r =>
            match nat_of_ascii c with
            | 34 =>
                match stringBody r with
                | Some (str, tail) => Some (JString str, tail)
                | None => None
                end
            | 91 =>
                match skipWs r with
                | String "]"%char tail => Some (JArray [], tail)
                | _ =>
                    asArray ((fix items (n : nat) (s : string) {struct n} : option (list json * string) :=
                       match n with
                       | O => None
                       | S n' =>
                           match value fuel' s with
                           | Some (v, tail) =>
                               match skipWs tail with
                               | String ","%char more =>
                                   match items n' more with
                                   | Some (vs, tail') => Some (v :: vs, tail')
                                   | None => None
                                   end
                               | String "]"%char tail' => Some ([v], tail')
                               | _ => None
                               end
                           | None => None
                           end
                       end) fuel' r)
                end
            | 123 =>
                match skipWs r with
                | String "}"%char tail => Some (JObject [], tail)
                | _ =>
                    asObject ((fix members (n : nat) (s : string) {struct n}
                       : option (list (string * json) * string) :=
                       match n with
                       | O => None
                       | S n' =>
                           match skipWs s with
                           | String "034"%char afterQuote =>
                               match stringBody afterQuote with
                               | Some (key, afterKey) =>
                                   match skipWs afterKey with
                                   | String ":"%char afterColon =>
                                       match value fuel' afterColon with
                                       | Some (v, tail) =>
                                           match skipWs tail with
                                           | String ","%char more =>
                                               match members n' more with
                                               | Some (kvs, tail') => Some ((key, v) :: kvs, tail')
                                               | None => None
                                               end
                                           | String "}"%char tail' => Some ([(key, v)], tail')
                                           | _ => None
                                           end
                                       | None => None
                                       end
                                   | _ => None
                                   end
                               | None => None
                               end
                           | _ => None
                           end
                       end) fuel' r)
                end
            | _ =>
                let '(lit, tail) := numberChars s in
                if wellFormedInteger lit then Some (JNumber lit, tail) else None
            end
        end
  end.

Definition parseJson (s : string) : option json :=
  match value (S (String.length s)) s with
  | Some (v, tail) => if String.eqb (skipWs tail) EmptyString then Some v else None
  | None => None
  end.

(** *** The inputs of the examples *)

Import Server.

(** A server whose pages render, and one whose home page throws. *)
Definition demoServer : World := server renderView 1000.

(** A browser on a page without a mount point, and one on a page that has it. *)
Definition emptyPage : World := browser [] 5.
Definition renderedPage : World := browser [mkNode "root" "<div class=app></div>"] 5.

Definition markupOf (r : outcome string) : string :=
  match r with Returned m => m | Thrown _ => EmptyString end.

(** What the demo server renders for [/about?x], and the header and the
    footer it renders for a path that is no page. *)
Definition aboutMarkup : string :=
  Eval vm_compute in markupOf (render demoServer (StaticRouter "/about?x" App)).

Definition strayHeader : string :=
  Eval vm_compute in
    markupOf (renderView Header (Some (staticLocation "/no/such/page")) (serverEnv 1000 0)).

Definition footerMarkup : string :=
  Eval vm_compute in
    markupOf (renderView Footer (Some (staticLocation "/no/such/page")) (serverEnv 1000 0)).

End Reference.

(* ================================================================== *)
(** ** The components of the application

    The JSX each component returns, as a function of what the component
    reads when it renders: the state of its hooks and the location of the
    router.  Event handlers and keys leave nothing in the markup and are
    not part of the tree; the handlers are the state transitions below.
    JSX text is the text the compiler keeps: line breaks and the
    indentation around them are dropped, lines are joined by one space. *)

Module Pages.

(** [<Link to={path} className={c}>]: the anchor the router renders for
    an absolute path, the class before the address. *)
Definition Link (to className : string) (children : list element) : element :=
  host "a" [("className", Str className); ("href", Str to)] children.

(** *** [Footer] *)

Definition FooterJsx : element :=
  host "footer" [("className", Str "footer")] [
      host "p" [("className", Str "footer__text")] [
          text "© 2024 ";
          host "span" [("className", Str "footer__highlight")] [text "React SSR 教学项目"]
      ];
      host "p" [("className", Str "footer__text")] [text "演示 React 18 同构渲染核心原理"]
  ].

(** *** [Header] *)

(** The navigation table: [path] and [label] of each entry. *)
Definition navItems : list (string * string) :=
  [("/", "首页"); ("/about", "关于"); ("/counter", "计数器")].

(** [const isActive = (path) => location.pathname === path] *)
Definition isActive (location : Location) (path : string) : bool :=
  String.eqb (pathname location) path.

(** The JSX of [Header], for the location [useLocation()] returns. *)
Definition HeaderJsx (location : Location) : element :=
  host "header" [("className", Str "header")] [
      host "h1" [("className", Str "header__title")] [text "🚀 React SSR 教学演示"];
      host "nav" [("className", Str "header__nav")]
        ((map (fun item =>
              Link (fst item)
                ("header__nav-link "
                 ++ (if isActive location (fst item) then "header__nav-link--active"
                     else EmptyString))
                [text (snd item)])
           navItems))%list
  ].

(** *** [Home] *)

(** The JSX of [Home], for the state [renderEnv]. *)
Definition HomeJsx (renderEnv : string) : element :=
  host "div" [("className", Str "page")] [
      host "div" [("className", Str ("ssr-indicator ssr-indicator--" ++ renderEnv))] [
          text (if String.eqb renderEnv "server" then "🖥️ SSR 渲染" else "🌐 客户端已水合")
      ];
      host "div" [("className", Str "page__card")] [
          host "h2" [("className", Str "page__title")] [text "👋 欢迎来到 React SSR 教学项目"];
          host "p" [("className", Str "page__text")] [
              text "这是一个手动实现的 React 同构渲染演示项目， 帮助你深入理解 SSR 的核心原理。"
          ]
      ];
      host "div" [("className", Str "page__card")] [
          host "h3" [("className", Str "page__subtitle")] [text "🤔 什么是 SSR（服务端渲染）？"];
          host "p" [("className", Str "page__text")] [
              text ("SSR 是指在服务器端将 React 组件渲染成 HTML 字符串， 然后发送给浏览器。浏览器收到后直接显示内容， 再由 React 在客户端" ++ dq ++ "水合" ++ dq ++ "（hydrate）这些 HTML，使其变得可交互。")
          ];
          host "div" [("className", Str "code-block")] [
              host "pre" [("className", Str "code-block__text")] [
                  host "span" [("className", Str "code-block__comment")] [text "// 服务端渲染流程"];
                  text LF;
                  host "span" [("className", Str "code-block__keyword")] [text "const"];
                  text " html = ReactDOMServer.";
                  host "span" [("className", Str "code-block__keyword")] [
                      text "renderToString"
                  ];
                  text "(";
                  text "<App />";
                  text ")";
                  text LF;
                  host "span" [("className", Str "code-block__comment")] [
                      text "// 返回给浏览器的 HTML 包含完整内容"
                  ]
              ]
          ]
      ];
      host "div" [("className", Str "page__card")] [
          host "h3" [("className", Str "page__subtitle")] [text "✨ SSR 的优势"];
          host "ul" [("className", Str "list")] [
              host "li" [("className", Str "list__item")] [text "首屏加载更快 - 无需等待 JS 执行"];
              host "li" [("className", Str "list__item")] [text "SEO 友好 - 搜索引擎可以抓取完整内容"];
              host "li" [("className", Str "list__item")] [text "更好的用户体验 - 减少白屏时间"];
              host "li" [("className", Str "list__item")] [text "社交分享友好 - 支持 OG 标签预览"]
          ]
      ];
      host "div" [("className", Str "page__card")] [
          host "h3" [("className", Str "page__subtitle")] [text "🔑 核心概念"];
          host "p" [("className", Str "page__text")] [
              host "strong" [] [text "1. renderToString()"]
          ];
          host "p" [("className", Str "page__text")] [
              text "将 React 组件树转换为 HTML 字符串，在服务端执行。"
          ];
          host "p" [("className", Str "page__text")] [
              host "strong" [] [text "2. hydrateRoot()"]
          ];
          host "p" [("className", Str "page__text")] [
              text ("在客户端" ++ dq ++ "水合" ++ dq ++ "服务端渲染的 HTML，绑定事件处理器，使页面可交互。")
          ];
          host "p" [("className", Str "page__text")] [host "strong" [] [text "3. 同构代码"]];
          host "p" [("className", Str "page__text")] [
              text "同一套代码在服务端和客户端都能运行，需要注意避免在服务端使用浏览器 API。"
          ]
      ];
      host "div" [("className", Str "page__card")] [
          host "h3" [("className", Str "page__subtitle")] [text "⚠️ 同构开发注意事项"];
          host "ul" [("className", Str "list")] [
              host "li" [("className", Str "list__item")] [text "避免在组件顶层使用 window/document"];
              host "li" [("className", Str "list__item")] [text "将浏览器 API 调用放在 useEffect 中"];
              host "li" [("className", Str "list__item")] [text "服务端和客户端的初始渲染结果必须一致"];
              host "li" [("className", Str "list__item")] [
                  text "使用环境判断：typeof window !== 'undefined'"
              ]
          ]
      ]
  ].

(** *** [About] *)

(** The JSX of [About], for the states [hydrated] and [renderTime]. *)
Definition AboutJsx (hydrated : bool) (renderTime : string) : element :=
  host "div" [("className", Str "page")] [
      host "div" [("className", Str "page__card")] [
          host "h2" [("className", Str "page__title")] [text "📖 SSR 完整流程详解"];
          host "p" [("className", Str "page__text")] [
              text "理解 SSR 的工作流程是掌握同构开发的关键。 下面让我们一步步拆解整个过程。"
          ]
      ];
      host "div" [("className", Str "page__card")] [
          host "h3" [("className", Str "page__subtitle")] [text "🔹 步骤 1：服务端渲染"];
          host "p" [("className", Str "page__text")] [text "当用户访问页面时，服务端执行以下操作："];
          host "div" [("className", Str "code-block")] [
              host "pre" [("className", Str "code-block__text")] [
                  host "span" [("className", Str "code-block__comment")] [
                      text "// server/index.js"
                  ];
                  text LF;
                  host "span" [("className", Str "code-block__keyword")] [text "import"];
                  text " ReactDOMServer ";
                  host "span" [("className", Str "code-block__keyword")] [text "from"];
                  text " ";
                  host "span" [("className", Str "code-block__string")] [
                      text "'react-dom/server'"
                  ];
                  text ";";
                  text LF;
                  host "span" [("className", Str "code-block__keyword")] [text "import"];
                  text " App ";
                  host "span" [("className", Str "code-block__keyword")] [text "from"];
                  text " ";
                  host "span" [("className", Str "code-block__string")] [
                      text "'../shared/App'"
                  ];
                  text ";";
                  text (LF ++ LF);
                  host "span" [("className", Str "code-block__comment")] [
                      text "// 将 React 组件渲染为 HTML 字符串"
                  ];
                  text LF;
                  host "span" [("className", Str "code-block__keyword")] [text "const"];
                  text " html = ReactDOMServer.";
                  host "span" [("className", Str "code-block__keyword")] [
                      text "renderToString"
                  ];
                  text "(";
                  text "<App />";
                  text ")";
                  text (LF ++ LF);
                  host "span" [("className", Str "code-block__comment")] [
                      text "// html 内容示例："
                  ];
                  text LF;
                  host "span" [("className", Str "code-block__comment")] [
                      text "// ";
                      text ("<div class=" ++ dq ++ "app" ++ dq ++ "><header>...</header></div>")
                  ]
              ]
          ];
          host "ul" [("className", Str "list")] [
              host "li" [("className", Str "list__item")] [text "执行组件函数，获取虚拟 DOM"];
              host "li" [("className", Str "list__item")] [text "将虚拟 DOM 转换为 HTML 字符串"];
              host "li" [("className", Str "list__item")] [text "useState 初始值会被使用"];
              host "li" [("className", Str "list__item")] [text "useEffect 不会执行"]
          ]
      ];
      host "div" [("className", Str "page__card")] [
          host "h3" [("className", Str "page__subtitle")] [text "🔹 步骤 2：嵌入 HTML 模板"];
          host "p" [("className", Str "page__text")] [text "服务端将渲染结果嵌入到 HTML 模板中："];
          host "div" [("className", Str "code-block")] [
              host "pre" [("className", Str "code-block__text")] [
                  host "span" [("className", Str "code-block__comment")] [
                      text "<!-- HTML 模板 -->"
                  ];
                  text LF;
                  host "span" [("className", Str "code-block__keyword")] [
                      text "<!DOCTYPE html>"
                  ];
                  text LF;
                  host "span" [("className", Str "code-block__string")] [text "<html>"];
                  text LF;
                  host "span" [("className", Str "code-block__string")] [text "<head>"];
                  text LF;
                  text "  ";
                  host "span" [("className", Str "code-block__string")] [
                      text ("<link rel=" ++ dq ++ "stylesheet" ++ dq ++ " href=" ++ dq ++ "/styles.css" ++ dq ++ ">")
                  ];
                  text LF;
                  host "span" [("className", Str "code-block__string")] [text "</head>"];
                  text LF;
                  host "span" [("className", Str "code-block__string")] [text "<body>"];
                  text LF;
                  text "  ";
                  host "span" [("className", Str "code-block__comment")] [
                      text "<!-- 服务端渲染的内容注入这里 -->"
                  ];
                  text LF;
                  text "  ";
                  host "span" [("className", Str "code-block__string")] [
                      text ("<div id=" ++ dq ++ "root" ++ dq ++ ">")
                  ];
                  text "${html}";
                  host "span" [("className", Str "code-block__string")] [text "</div>"];
                  text LF;
                  text "  ";
                  host "span" [("className", Str "code-block__comment")] [
                      text "<!-- 客户端 JS 用于水合 -->"
                  ];
                  text LF;
                  text "  ";
                  host "span" [("className", Str "code-block__string")] [
                      text ("<script src=" ++ dq ++ "/bundle.js" ++ dq ++ "></script>")
                  ];
                  text LF;
                  host "span" [("className", Str "code-block__string")] [text "</body>"];
                  text LF;
                  host "span" [("className", Str "code-block__string")] [text "</html>"]
              ]
          ];
          host "ul" [("className", Str "list")] [
              host "li" [("className", Str "list__item")] [text "HTML 包含完整的页面内容"];
              host "li" [("className", Str "list__item")] [text "CSS 可以立即应用样式"];
              host "li" [("className", Str "list__item")] [text "JS bundle 用于后续水合"]
          ]
      ];
      host "div" [("className", Str "page__card")] [
          host "h3" [("className", Str "page__subtitle")] [text "🔹 步骤 3：客户端水合"];
          host "p" [("className", Str "page__text")] [
              text ("浏览器加载 JS 后，React 进行" ++ dq ++ "水合" ++ dq ++ "操作：")
          ];
          host "div" [("className", Str "code-block")] [
              host "pre" [("className", Str "code-block__text")] [
                  host "span" [("className", Str "code-block__comment")] [
                      text "// client/index.jsx"
                  ];
                  text LF;
                  host "span" [("className", Str "code-block__keyword")] [text "import"];
                  text " ";
                  text "{ hydrateRoot }";
                  text " ";
                  host "span" [("className", Str "code-block__keyword")] [text "from"];
                  text " ";
                  host "span" [("className", Str "code-block__string")] [
                      text "'react-dom/client'"
                  ];
                  text ";";
                  text LF;
                  host "span" [("className", Str "code-block__keyword")] [text "import"];
                  text " App ";
                  host "span" [("className", Str "code-block__keyword")] [text "from"];
                  text " ";
                  host "span" [("className", Str "code-block__string")] [
                      text "'../shared/App'"
                  ];
                  text ";";
                  text (LF ++ LF);
                  host "span" [("className", Str "code-block__comment")] [
                      text "// 水合：复用服务端渲染的 DOM"
                  ];
                  text LF;
                  host "span" [("className", Str "code-block__comment")] [
                      text "// 不会重新创建 DOM，只绑定事件"
                  ];
                  text LF;
                  text "hydrateRoot(";
                  text LF;
                  text "  ";
                  text "document.getElementById(";
                  host "span" [("className", Str "code-block__string")] [text "'root'"];
                  text "),";
                  text LF;
                  text "  ";
                  text "<App />";
                  text LF;
                  text ");"
              ]
          ];
          host "ul" [("className", Str "list")] [
              host "li" [("className", Str "list__item")] [text "对比服务端 HTML 和客户端渲染结果"];
              host "li" [("className", Str "list__item")] [text "复用已有 DOM，不重新创建"];
              host "li" [("className", Str "list__item")] [text "绑定事件处理器"];
              host "li" [("className", Str "list__item")] [text "执行 useEffect"];
              host "li" [("className", Str "list__item")] [text "页面变得完全可交互"]
          ]
      ];
      host "div" [("className", Str "page__card")] [
          host "h3" [("className", Str "page__subtitle")] [text "🧪 水合状态演示"];
          host "p" [("className", Str "page__text")] [text "下面的状态可以帮助你理解水合时机："];
          host "div" [("className", Str "list")] [
              host "div" [("className", Str "list__item")] [
                  text "水合状态：";
                  host "strong" [] [text (if hydrated then "✅ 已水合" else "⏳ 未水合")]
              ];
              host "div" [("className", Str "list__item")] [
                  text "水合时间：";
                  host "strong" [] [text renderTime]
              ]
          ];
          host "p" [("className", Str "page__text"); ("style", Style [("marginTop", "2.67vw"); ("fontSize", "3.2vw"); ("color", "#888")])] [
              text ("💡 提示：如果你看到" ++ dq ++ "已水合" ++ dq ++ "，说明客户端 JS 已经执行完成。 刷新页面后，你可能会短暂看到" ++ dq ++ "未水合" ++ dq ++ "状态。")
          ]
      ];
      host "div" [("className", Str "page__card")] [
          host "h3" [("className", Str "page__subtitle")] [text "📚 扩展：渲染 API 对比"];
          host "p" [("className", Str "page__text")] [
              host "strong" [] [text "renderToString()"]
          ];
          host "ul" [("className", Str "list")] [
              host "li" [("className", Str "list__item")] [text "同步渲染，一次性返回完整 HTML"];
              host "li" [("className", Str "list__item")] [text "简单易用，适合教学和小型项目"];
              host "li" [("className", Str "list__item")] [text "不支持 Suspense 流式传输"]
          ];
          host "p" [("className", Str "page__text"); ("style", Style [("marginTop", "2.67vw")])] [
              host "strong" [] [text "renderToPipeableStream()"]
          ];
          host "ul" [("className", Str "list")] [
              host "li" [("className", Str "list__item")] [text "React 18 新增的流式渲染 API"];
              host "li" [("className", Str "list__item")] [text "支持 Suspense 和流式传输"];
              host "li" [("className", Str "list__item")] [text "可以更早地发送 HTML 给浏览器"];
              host "li" [("className", Str "list__item")] [text "更好的性能，适合生产环境"]
          ]
      ]
  ].

(** *** [Counter] *)

(** The three states of [Counter]. *)
Record CounterState : Set :=
  mkCounterState { count : Z; isHydrated : bool; clickHistory : list string }.

(** The card of the click history: the list of the records, or a
    paragraph when there is none. *)
Definition historyCard (clickHistory : list string) : element :=
  if 0 <? length clickHistory then
    host "ul" [("className", Str "list")]
      (map (fun record => host "li" [("className", Str "list__item")] [text record])
           clickHistory)
  else
    host "p" [("className", Str "page__text");
              ("style", Style [("textAlign", "center"); ("color", "#888")])]
      [text "还没有操作记录，点击按钮试试吧！"].

(** The JSX of [Counter], for its state. *)
Definition CounterJsx (s : CounterState) : element :=
  host "div" [("className", Str "page")] [
      host "div" [("className", Str "page__card")] [
          host "h2" [("className", Str "page__title")] [text "🎮 交互功能演示"];
          host "p" [("className", Str "page__text")] [
              text "这个计数器演示了 SSR 和水合的关系。 服务端渲染的 HTML 显示初始值，但无法交互。 水合完成后，按钮才能响应点击。"
          ];
          host "div" [("className", Str "list__item"); ("style", Style [("textAlign", "center"); ("background", (if isHydrated s
                 then "linear-gradient(135deg, rgba(79, 172, 254, 0.2) 0%, rgba(0, 242, 254, 0.2) 100%)"
                 else "linear-gradient(135deg, rgba(240, 147, 251, 0.2) 0%, rgba(245, 87, 108, 0.2) 100%)"))])] [
              text (if isHydrated s then "✅ 已水合 - 可以交互" else "⏳ 等待水合 - 暂不可交互")
          ]
      ];
      host "div" [("className", Str "page__card")] [
          host "h3" [("className", Str "page__subtitle")] [text "计数器"];
          host "div" [("className", Str "counter")] [
              host "button" [("className", Str "counter__btn"); ("aria-label", Str "减少")] [
                  text "−"
              ];
              host "span" [("className", Str "counter__value")] [text (ofZ (count s))];
              host "button" [("className", Str "counter__btn"); ("aria-label", Str "增加")] [
                  text "+"
              ]
          ];
          host "div" [("style", Style [("textAlign", "center"); ("marginTop", "2.67vw")])] [
              host "button" [("className", Str "btn btn--secondary")] [text "重置"]
          ]
      ];
      host "div" [("className", Str "page__card")] [
          host "h3" [("className", Str "page__subtitle")] [text "📝 操作记录"];
          historyCard (clickHistory s)
      ];
      host "div" [("className", Str "page__card")] [
          host "h3" [("className", Str "page__subtitle")] [text "💡 为什么需要水合？"];
          host "p" [("className", Str "page__text")] [
              host "strong" [] [text "服务端渲染只生成 HTML"]
          ];
          host "div" [("className", Str "code-block")] [
              host "pre" [("className", Str "code-block__text")] [
                  host "span" [("className", Str "code-block__comment")] [
                      text "<!-- 服务端返回的 HTML -->"
                  ];
                  text LF;
                  host "span" [("className", Str "code-block__string")] [
                      text ("<button class=" ++ dq ++ "counter__btn" ++ dq ++ ">")
                  ];
                  text "+";
                  host "span" [("className", Str "code-block__string")] [text "</button>"];
                  text LF;
                  host "span" [("className", Str "code-block__comment")] [
                      text "<!-- 注意：没有 onclick 属性！ -->"
                  ]
              ]
          ];
          host "p" [("className", Str "page__text")] [
              text "服务端生成的 HTML 只是静态内容，没有事件处理器。 这是因为："
          ];
          host "ul" [("className", Str "list")] [
              host "li" [("className", Str "list__item")] [
                  text "HTML 无法直接包含 JavaScript 函数引用"
              ];
              host "li" [("className", Str "list__item")] [text "React 的事件系统依赖于虚拟 DOM"];
              host "li" [("className", Str "list__item")] [text "需要 JavaScript 运行时来处理事件"]
          ];
          host "p" [("className", Str "page__text"); ("style", Style [("marginTop", "2.67vw")])] [
              host "strong" [] [text "水合过程绑定事件"]
          ];
          host "div" [("className", Str "code-block")] [
              host "pre" [("className", Str "code-block__text")] [
                  host "span" [("className", Str "code-block__comment")] [
                      text "// 水合时 React 做的事情"
                  ];
                  text LF;
                  host "span" [("className", Str "code-block__comment")] [
                      text "// 1. 找到已存在的 DOM 节点"
                  ];
                  text LF;
                  host "span" [("className", Str "code-block__keyword")] [text "const"];
                  text " button = document.querySelector(";
                  host "span" [("className", Str "code-block__string")] [
                      text "'.counter__btn'"
                  ];
                  text ");";
                  text (LF ++ LF);
                  host "span" [("className", Str "code-block__comment")] [
                      text "// 2. 绑定事件处理器"
                  ];
                  text LF;
                  text "button.addEventListener(";
                  host "span" [("className", Str "code-block__string")] [text "'click'"];
                  text ", increment);";
                  text (LF ++ LF);
                  host "span" [("className", Str "code-block__comment")] [
                      text "// 现在按钮可以响应点击了！"
                  ]
              ]
          ]
      ];
      host "div" [("className", Str "page__card")] [
          host "h3" [("className", Str "page__subtitle")] [text "🔄 SSR vs CSR 首屏对比"];
          host "p" [("className", Str "page__text")] [host "strong" [] [text "SSR（服务端渲染）"]];
          host "ul" [("className", Str "list")] [
              host "li" [("className", Str "list__item")] [text "用户立即看到内容（HTML 已包含）"];
              host "li" [("className", Str "list__item")] [text "等待 JS 加载和水合后可交互"];
              host "li" [("className", Str "list__item")] [text "首屏时间 = HTML 加载时间"]
          ];
          host "p" [("className", Str "page__text"); ("style", Style [("marginTop", "2.67vw")])] [
              host "strong" [] [text "CSR（客户端渲染）"]
          ];
          host "ul" [("className", Str "list")] [
              host "li" [("className", Str "list__item")] [text "用户先看到空白或 loading"];
              host "li" [("className", Str "list__item")] [text "等待 JS 加载、执行、渲染后显示"];
              host "li" [("className", Str "list__item")] [text "首屏时间 = JS 加载 + 执行 + 渲染时间"]
          ]
      ]
  ].

(** *** The state of the hooks *)

(** What [useState] is given: the state of the render on the server and of
    the first render in the browser. *)
Definition initialRenderEnv : string := "server".
Definition initialHydrated : bool := false.
Definition initialRenderTime : string := "计算中...".
Definition initialCounter : CounterState := mkCounterState 0 false [].

(** The counter is a number: a sum is exact up to 2^53 in magnitude, and
    at that bound one more step rounds back to the bound. *)
Definition maxCount : Z := (2 ^ 53)%Z.

(** [prev + 1] and [prev - 1] *)
Definition plusOne (n : Z) : Z := if (n =? maxCount)%Z then n else (n + 1)%Z.
Definition minusOne (n : Z) : Z := if (n =? - maxCount)%Z then n else (n - 1)%Z.

(** [prev.slice(-n)]: the last [n] entries, all of them when there are
    fewer. *)
Definition sliceLast {A : Type} (n : nat) (l : list A) : list A :=
  skipn (length l - n) l.

(** The effect of the mount: [setIsHydrated(true)]. *)
Definition mount (s : CounterState) : CounterState :=
  mkCounterState (count s) true (clickHistory s).

(** [increment], [decrement] and [reset]; [time] is what
    [new Date().toLocaleTimeString('zh-CN')] returns at the click. *)
Definition increment (time : string) (s : CounterState) : CounterState :=
  mkCounterState (plusOne (count s)) (isHydrated s)
    (sliceLast 4 (clickHistory s) ++ [("+1 @ " ++ time)%string])%list.

Definition decrement (time : string) (s : CounterState) : CounterState :=
  mkCounterState (minusOne (count s)) (isHydrated s)
    (sliceLast 4 (clickHistory s) ++ [("-1 @ " ++ time)%string])%list.

Definition reset (s : CounterState) : CounterState :=
  mkCounterState 0 (isHydrated s) [].

(** What happens to a mounted counter: the effect of the mount and the
    clicks on its three buttons. *)
Inductive action : Set :=
  | Mount
  | Increment (time : string)
  | Decrement (time : string)
  | Reset.

Definition step (s : CounterState) (a : action) : CounterState :=
  match a with
  | Mount => mount s
  | Increment time => increment time s
  | Decrement time => decrement time s
  | Reset => reset s
  end.

(** The state after the actions [acts], from the initial state. *)
Definition play (acts : list action) : CounterState := fold_left step acts initialCounter.

(** *** The views of a render *)

(** The first render of each component: its JSX at the initial state of
    its hooks.  The trees hold host elements and text only.  [Header]
    calls [useLocation], which throws outside a router. *)
Definition views (v : View) (loc : option Location) (env : Environment) : outcome string :=
  let markup := renderElement Reference.matchPath Reference.noView env loc in
  match v with
  | Header =>
      match loc with
      | Some l => markup (HeaderJsx l)
      | None =>
          Thrown (mkError "useLocation() may be used only in the context of a <Router> component.")
      end
  | Footer => markup FooterJsx
  | Home => markup (HomeJsx initialRenderEnv)
  | About => markup (AboutJsx initialHydrated initialRenderTime)
  | Counter => markup (CounterJsx initialCounter)
  end.

(** A server whose React renders the components of the application. *)
Definition appServer (start : Z) : World := Reference.server views start.

End Pages.

(* ================================================================== *)
(** ** A run of the counter

    What the clicks on a counter amount to: the record each click writes,
    the change it makes, and the clicks that still count after a reset. *)

Module CounterRun.

Import Pages.

(** The record a click writes in the history. *)
Definition record (a : action) : list string :=
  match a with
  | Increment time => ["+1 @ " ++ time]
  | Decrement time => ["-1 @ " ++ time]
  | Mount | Reset => []
  end.

(** The change a click makes to the count. *)
Definition change (a : action) : Z :=
  match a with
  | Increment _ => 1
  | Decrement _ => -1
  | Mount | Reset => 0
  end%Z.

(** The actions after the last reset. *)
Definition sinceReset (acts : list action) : list action :=
  fold_left (fun kept a => match a with Reset => [] | _ => kept ++ [a] end)%list acts [].

Definition total (l : list Z) : Z := fold_right Z.add 0%Z l.

End CounterRun.

(* ================================================================== *)
(** ** The caller of the JSON route: [ApiDemo] *)

Module ApiDemo.

Import ApiHello.

(** *** [encodeURIComponent]

    Letters, digits and [- _ . ! ~ * ' ( )] stand for themselves; every
    other byte of the UTF-8 text is written as a percent sign and two
    upper-case hexadecimal digits. *)

Definition isUnreserved (c : ascii) : bool :=
  let n := nat_of_ascii c in
  ((65 <=? n) && (n <=? 90)) || ((97 <=? n) && (n <=? 122)) || ((48 <=? n) && (n <=? 57))
  || (n =? 45) || (n =? 95) || (n =? 46) || (n =? 33) || (n =? 126)
  || (n =? 42) || (n =? 39) || (n =? 40) || (n =? 41).

Definition hexDigit (n : nat) : ascii :=
  if n <? 10 then ascii_of_nat (48 + n) else ascii_of_nat (55 + n).

Definition encodeByte (c : ascii) : string :=
  if isUnreserved c then String c EmptyString
  else
    let n := nat_of_ascii c in
    String "%"%char (String (hexDigit (n / 16)) (String (hexDigit (n mod 16)) EmptyString)).

Fixpoint encodeURIComponent (s : string) : string :=
  match s with
  | EmptyString => EmptyString
  | String c r => encodeByte c ++ encodeURIComponent r
  end.

(** *** The state of the component *)

(** [response.status]: the status of the HTTP response, or the string
    ['error'] the [catch] block writes. *)
Inductive Status : Set :=
  | HttpStatus (code : nat)
  | ErrorStatus.

(** The [response] state, once set. *)
Record Shown : Set := mkShown { shownStatus : Status; data : json }.

(** The four states of [ApiDemo]. *)
Record State : Set :=
  mkState { response : option Shown; loading : bool; method : string; name : string }.

Definition initialState : State := mkState None false "GET" "Next.js".

(** *** [fetch] *)

(** The second argument of [fetch]. *)
Record RequestInit : Set :=
  mkRequestInit { initMethod : string; headers : list (string * string); initBody : string }.

(** A response, as far as [callApi] reads it: [res.status] and the result
    of [res.json()], which rejects when the body is not JSON. *)
Record Fetched : Set := mkFetched { fetchedStatus : nat; fetchedJson : outcome json }.

Section CallApi.

(** [fetch], which rejects when the request fails, and [JSON.stringify]. *)
Variable fetch : string -> option RequestInit -> outcome Fetched.
Variable stringify : json -> string.

(** The request [callApi] sends in the state [s]: a GET with the encoded
    name in the query, or else a POST with the name and the time. *)
Definition request (now : Date) (s : State) : string * option RequestInit :=
  if String.eqb (method s) "GET" then
    ("/api/hello?name=" ++ encodeURIComponent (name s), None)
  else
    ("/api/hello",
     Some (mkRequestInit "POST" [("Content-Type", "application/json")]
             (stringify (JObject [("name", JString (name s));
                                  ("timestamp", JString (toISOString now))])))).

(** What the [catch] block shows. *)
Definition failure (error : Error) : Shown :=
  mkShown ErrorStatus (JObject [("error", JString (message error))]).

(** What [setResponse] is called with after the request: the [try] block
    awaits [fetch] and [res.json()]; the [catch] block takes over when
    either rejects. *)
Definition answer (now : Date) (s : State) : Shown :=
  let '(url, init) := request now s in
  match fetch url init with
  | Thrown error => failure error
  | Returned res =>
      match fetchedJson res with
      | Thrown error => failure error
      | Returned data => mkShown (HttpStatus (fetchedStatus res)) data
      end
  end.




End CallApi.

(** A [fetch] that is answered by the route handlers of [/api/hello] on
    the site [origin]: a request without init is a GET, the payload of the
    response arrives as it was sent. *)
Definition served (origin : string)
    (searchParamsOf : string -> list (string * string))
    (parseJson : string -> option json) (now : Date)
    (url : string) (init : option RequestInit) : outcome Fetched :=
  let response :=
    match init with
    | None => GET searchParamsOf (mkRequest (origin ++ url) EmptyString) now
    | Some i => POST parseJson (mkRequest (origin ++ url) (initBody i)) now
    end in
  Returned (mkFetched (status response) (Returned (payload response))).

End ApiDemo.

(* ================================================================== *)
(** ** Reading markup and documents *)

Module Reading.

(** Markup that is empty or starts with a tag. *)
Definition tagged (m : string) : Prop :=
  m = EmptyString \/ exists m', m = String "<"%char m'.

(** The link of the style sheet, as the template writes it. *)
Definition stylesheetLink : string :=
  "<link rel=" ++ dq ++ "stylesheet" ++ dq ++ " href=" ++ dq ++ "/styles.css" ++ dq ++ ">".

(** The [og:title] of a document: the content of its meta element. *)
Definition ogTitleOpen : string :=
  "<meta property=" ++ dq ++ "og:title" ++ dq ++ " content=" ++ dq.

Definition ogTitle (doc : string) : option string := between ogTitleOpen dq doc.

(** The class of the active link of the header, and the opening tag of
    the active link to [path]. *)
Definition activeClass : string := "header__nav-link--active".

Definition activeLink (path : string) : string :=
  "<a class=" ++ dq ++ "header__nav-link " ++ activeClass ++ dq
  ++ " href=" ++ dq ++ path ++ dq ++ ">".


End Reading.

(* ================================================================== *)
(** ** A browser on a document *)

Module Browser.




End Browser.

(* ================================================================== *)
(** * Facts about texts *)

Module StringFacts.

Lemma append_assoc (a b c : string) : (a ++ b) ++ c = a ++ b ++ c.
Proof. induction a as [|x a IH]; simpl; [reflexivity | now rewrite IH]. Qed.

Lemma append_nil_r (a : string) : a ++ EmptyString = a.
Proof. induction a as [|x a IH]; simpl; [reflexivity | now rewrite IH]. Qed.

Lemma length_append (a b : string) :
  String.length (a ++ b) = String.length a + String.length b.
Proof. induction a as [|x a IH]; simpl; [reflexivity | now rewrite IH]. Qed.

Lemma srev_onto_spec (s acc : string) : srev_onto s acc = srev s ++ acc.
Proof.
  unfold srev. revert acc.
  induction s as [|c s IH]; intro acc; simpl; [reflexivity|].
  rewrite IH, (IH (String c EmptyString)), append_assoc. reflexivity.
Qed.

Lemma srev_cons (c : ascii) (s : string) : srev (String c s) = srev s ++ String c EmptyString.
Proof. unfold srev at 1. simpl. apply srev_onto_spec. Qed.

Lemma srev_app (a b : string) : srev (a ++ b) = srev b ++ srev a.
Proof.
  induction a as [|c a IH]; simpl.
  - now rewrite append_nil_r.
  - now rewrite !srev_cons, IH, append_assoc.
Qed.

Lemma srev_involutive (s : string) : srev (srev s) = s.
Proof.
  induction s as [|c s IH]; [reflexivity|].
  rewrite srev_cons, srev_app, IH. reflexivity.
Qed.

Lemma join_cons (sep x : string) (l : list string) :
  l <> [] -> join sep (x :: l) = x ++ sep ++ join sep l.
Proof. destruct l; [congruence | reflexivity]. Qed.

Lemma join_app (sep : string) (l1 l2 : list string) :
  l1 <> [] -> l2 <> [] ->
  join sep (l1 ++ l2)%list = join sep l1 ++ sep ++ join sep l2.
Proof.
  intros H1 H2. induction l1 as [|x l1 IH]; [congruence|].
  destruct l1 as [|y l1].
  - simpl app. now rewrite join_cons.
  - change ((x :: y :: l1) ++ l2)%list with (x :: ((y :: l1) ++ l2))%list.
    rewrite join_cons by discriminate.
    rewrite IH by discriminate.
    rewrite (join_cons sep x (y :: l1)) by discriminate.
    now rewrite !append_assoc.
Qed.

(** [stripAll] stops at a text that starts with no white space. *)
Lemma stripAll_stop (strip : string -> option string) (fuel : nat) (s : string) :
  strip s = None -> stripAll strip fuel s = s.
Proof. intro H. destruct fuel; simpl; [reflexivity | now rewrite H]. Qed.

(** A text framed by two line feeds is trimmed to what they frame, when
    that starts and ends with no white space. *)
Lemma trim_frame (x : string) :
  stripWs (x ++ LF) = None ->
  stripWsRev (srev x) = None ->
  trim (LF ++ x ++ LF) = x.
Proof.
  intros Hs He. unfold trim.
  assert (Hstart : trimStart (LF ++ x ++ LF) = x ++ LF).
  { unfold trimStart. change (LF ++ x ++ LF) with (String "010"%char (x ++ LF)).
    simpl String.length. simpl stripAll.
    change (stripWs (String "010"%char (x ++ LF))) with (Some (x ++ LF)).
    now apply stripAll_stop. }
  rewrite Hstart. unfold trimEnd.
  rewrite srev_app, length_append, Nat.add_comm.
  change (srev LF) with LF.
  change (LF ++ srev x) with (String "010"%char (srev x)).
  simpl String.length. simpl Nat.add. simpl stripAll.
  change (stripWsRev (String "010"%char (srev x))) with (Some (srev x)).
  rewrite stripAll_stop by assumption.
  apply srev_involutive.
Qed.

Lemma prefix_cons (a b : ascii) (p s : string) :
  String.prefix (String a p) (String b s) = if Ascii.eqb a b then String.prefix p s else false.
Proof.
  simpl. destruct (ascii_dec a b) as [->|N].
  - now rewrite Ascii.eqb_refl.
  - apply Ascii.eqb_neq in N. now rewrite N.
Qed.

(** *** Occurrences of a pattern whose first character is a mark *)

(** A pattern that lacks [c] cannot run on into a text that starts with
    [c] or is empty. *)
Lemma prefix_app_mark (c : ascii) (q x b : string) :
  lacks c q = true ->
  (b = EmptyString \/ exists b', b = String c b') ->
  String.prefix q (x ++ b) = String.prefix q x.
Proof.
  revert x. induction q as [|d q IH]; intros x Hq Hb.
  - destruct x, b; reflexivity.
  - simpl in Hq. apply andb_true_iff in Hq. destruct Hq as [Hd Hq].
    destruct x as [|e x].
    + simpl. destruct Hb as [-> | [b' ->]]; [reflexivity|].
      simpl. destruct (ascii_dec d c) as [->|]; [|reflexivity].
      rewrite Ascii.eqb_refl in Hd. discriminate.
    + simpl. destruct (ascii_dec d e); [now apply IH | reflexivity].
Qed.

(** Occurrences add up across a cut that is followed by the mark. *)
Lemma occurrences_app_mark (c : ascii) (q a b : string) :
  lacks c q = true ->
  (b = EmptyString \/ exists b', b = String c b') ->
  occurrences (String c q) (a ++ b) = occurrences (String c q) a + occurrences (String c q) b.
Proof.
  intros Hq Hb. induction a as [|e a IH].
  - reflexivity.
  - change (String e a ++ b) with (String e (a ++ b)).
    cbn [occurrences]. rewrite IH.
    assert (Hp : String.prefix (String c q) (String e (a ++ b))
                 = String.prefix (String c q) (String e a)).
    { simpl. destruct (ascii_dec c e); [now apply (prefix_app_mark c) | reflexivity]. }
    rewrite Hp. lia.
Qed.

Lemma lacks_app (c : ascii) (a b : string) : lacks c (a ++ b) = lacks c a && lacks c b.
Proof.
  induction a as [|e a IH]; simpl; [reflexivity|].
  now rewrite IH, andb_assoc.
Qed.

(** *** Texts in which no occurrence of a pattern starts *)

Lemma mismatch_prefix (pat s x : string) :
  mismatch pat s = true -> String.prefix pat (s ++ x) = false.
Proof.
  revert s. induction pat as [|a p IH]; intros s H.
  - destruct s; discriminate.
  - destruct s as [|b s]; [discriminate|].
    simpl in H |- *. destruct (ascii_dec a b) as [->|Hab].
    + rewrite Ascii.eqb_refl in H. now apply IH.
    + reflexivity.
Qed.

Lemma mismatch_app (pat s x : string) :
  mismatch pat s = true -> mismatch pat (s ++ x) = true.
Proof.
  revert s. induction pat as [|a p IH]; intros s H.
  - destruct s; discriminate.
  - destruct s as [|b s]; [discriminate|].
    simpl in H |- *. destruct (Ascii.eqb a b); [now apply IH | reflexivity].
Qed.

Lemma clear_app (pat a b : string) :
  clear pat a = true -> clear pat b = true -> clear pat (a ++ b) = true.
Proof.
  intros Ha Hb. induction a as [|c a IH]; [exact Hb|].
  change (String c a ++ b) with (String c (a ++ b)).
  cbn [clear] in Ha |- *. apply andb_true_iff in Ha. destruct Ha as [Hm Ha].
  rewrite (IH Ha), andb_true_r.
  now apply (mismatch_app pat (String c a) b).
Qed.

Lemma clear_join (pat sep : string) (l : list string) :
  clear pat sep = true ->
  Forall (fun x => clear pat x = true) l ->
  clear pat (join sep l) = true.
Proof.
  intros Hsep Hl. induction Hl as [|x l Hx Hl IH]; [reflexivity|].
  destruct l as [|y l]; [exact Hx|].
  rewrite join_cons by discriminate.
  apply clear_app; [exact Hx|]. now apply clear_app.
Qed.

Lemma lacks_clear (c : ascii) (q s : string) :
  lacks c s = true -> clear (String c q) s = true.
Proof.
  induction s as [|e s IH]; intro H; [reflexivity|].
  simpl in H. apply andb_true_iff in H. destruct H as [He Hs].
  cbn [clear mismatch]. rewrite (IH Hs), andb_true_r.
  destruct (Ascii.eqb c e); [discriminate | reflexivity].
Qed.

Lemma clear_occurrences (pat a x : string) :
  clear pat a = true -> occurrences pat (a ++ x) = occurrences pat x.
Proof.
  intro Ha. induction a as [|c a IH]; [reflexivity|].
  cbn [clear] in Ha. apply andb_true_iff in Ha. destruct Ha as [Hm Ha].
  change (String c a ++ x) with (String c (a ++ x)).
  cbn [occurrences]. rewrite (IH Ha).
  change (String c (a ++ x)) with (String c a ++ x).
  now rewrite (mismatch_prefix pat (String c a) x Hm).
Qed.

Lemma clear_after (pat a x : string) :
  clear pat a = true -> after pat (a ++ x) = after pat x.
Proof.
  intro Ha. induction a as [|c a IH]; [reflexivity|].
  cbn [clear] in Ha. apply andb_true_iff in Ha. destruct Ha as [Hm Ha].
  change (String c a ++ x) with (String c (a ++ x)).
  cbn [after].
  change (String c (a ++ x)) with (String c a ++ x).
  rewrite (mismatch_prefix pat (String c a) x Hm).
  now apply IH.
Qed.

Lemma prefix_self (p x : string) : String.prefix p (p ++ x) = true.
Proof.
  induction p as [|c p IH].
  - now destruct x.
  - change (String c p ++ x) with (String c (p ++ x)).
    now rewrite prefix_cons, Ascii.eqb_refl.
Qed.

Lemma drop_length (p x : string) : drop (String.length p) (p ++ x) = x.
Proof. induction p as [|c p IH]; [now destruct x | exact IH]. Qed.

Lemma after_self (c : ascii) (q x : string) :
  after (String c q) (String c q ++ x) = Some x.
Proof.
  change (String c q ++ x) with (String c (q ++ x)).
  cbn [after].
  change (String c (q ++ x)) with (String c q ++ x).
  now rewrite prefix_self, drop_length.
Qed.

(** One occurrence starts at a pattern that opens with its mark. *)
Lemma occurrences_self (c : ascii) (q x : string) :
  lacks c q = true ->
  occurrences (String c q) (String c q ++ x) = S (occurrences (String c q) x).
Proof.
  intro Hq.
  change (String c q ++ x) with (String c (q ++ x)).
  cbn [occurrences].
  rewrite (clear_occurrences (String c q) q x (lacks_clear c q q Hq)).
  change (String c (q ++ x)) with (String c q ++ x).
  now rewrite prefix_self.
Qed.

(** Digits are not angle brackets. *)
Lemma lacks_lt_digit (n : Z) : lacks "<"%char (digit n) = true.
Proof.
  unfold digit.
  assert (H : (0 <= n mod 10 < 10)%Z) by (apply Z.mod_pos_bound; lia).
  assert (Hn : Z.to_nat (n mod 10) < 10) by lia.
  remember (Z.to_nat (n mod 10)) as k eqn:Hk. clear Hk H.
  do 10 (destruct k as [|k]; [reflexivity|]). lia.
Qed.

Lemma lacks_lt_padded (w : nat) (n : Z) : lacks "<"%char (padded w n) = true.
Proof.
  revert n. induction w as [|w IH]; intro n; simpl; [reflexivity|].
  now rewrite lacks_app, IH, lacks_lt_digit.
Qed.

Lemma lacks_lt_toISOString (d : Date) : lacks "<"%char (toISOString d) = true.
Proof.
  unfold toISOString.
  destruct (civil (getTime d / msPerDay)) as [[y m] dd].
  assert (Hy : lacks "<"%char (isoYear y) = true).
  { unfold isoYear.
    destruct ((0 <=? y)%Z && (y <=? 9999)%Z); [apply lacks_lt_padded|].
    rewrite lacks_app, lacks_lt_padded. now destruct (y <? 0)%Z. }
  repeat (rewrite lacks_app; try rewrite lacks_lt_padded; try rewrite Hy).
  reflexivity.
Qed.

End StringFacts.

Import StringFacts.

(* ================================================================== *)
(** * The template *)

Module TemplateFacts.

Lemma headLines_nonempty (t : string) : headLines t <> [].
Proof. discriminate. Qed.

(** The literal is the document between two line feeds. *)
Lemma templateLiteral_document (a t s : string) :
  templateLiteral a t s = LF ++ htmlDocument a t s ++ LF.
Proof.
  unfold templateLiteral, htmlDocument, templateLines, docHead, stampGap, docTail.
  rewrite (join_app LF (headLines t)) by (try apply headLines_nonempty; discriminate).
  change ([rootLine a] ++ debugLines ++ [stampLine s] ++ scriptLines)%list
    with (rootLine a :: (debugLines ++ [stampLine s] ++ scriptLines))%list.
  rewrite join_cons by discriminate.
  rewrite (join_app LF debugLines) by discriminate.
  change ([stampLine s] ++ scriptLines)%list with (stampLine s :: scriptLines).
  rewrite join_cons by discriminate.
  unfold rootLine, stampLine.
  rewrite !append_assoc. reflexivity.
Qed.

Lemma document_starts (a t s : string) : stripWs (htmlDocument a t s ++ LF) = None.
Proof. reflexivity. Qed.

Lemma document_ends (a t s : string) : stripWsRev (srev (htmlDocument a t s)) = None.
Proof.
  unfold htmlDocument.
  rewrite (srev_app (docHead t)), (srev_app (mountPoint a)), (srev_app stampGap),
    (srev_app (stampComment s)).
  reflexivity.
Qed.

(** [trim] removes the two line feeds and nothing else. *)
Lemma renderTemplate_document (a : string) (t : option string) (now : Date) :
  renderTemplate a t now
  = htmlDocument a (match t with Some x => x | None => defaultTitle end) (toISOString now).
Proof.
  unfold renderTemplate. rewrite templateLiteral_document.
  apply trim_frame; [apply document_starts | apply document_ends].
Qed.

(** A document opens with the doctype and closes the [html] element. *)
Lemma document_complete (a t s : string) :
  startsWith (htmlDocument a t s) "<!DOCTYPE html>" = true
  /\ endsWith (htmlDocument a t s) "</html>" = true.
Proof.
  split; [reflexivity|].
  unfold endsWith, htmlDocument.
  rewrite (srev_app (docHead t)), (srev_app (mountPoint a)), (srev_app stampGap),
    (srev_app (stampComment s)).
  reflexivity.
Qed.


(** *** The mount point's opening tag in a document *)

Ltac clear_lines :=
  repeat first
    [ apply Forall_nil
    | apply Forall_cons
    | reflexivity
    | apply clear_app
    | (apply lacks_clear; assumption) ].

(** Neither the head (for a title without an angle bracket), nor what
    follows the mount point holds the opening tag of the mount point. *)
Lemma docHead_clear (t : string) :
  lacks "<"%char t = true -> clear rootTag (docHead t) = true.
Proof.
  intro Ht. unfold docHead.
  apply clear_app; [|reflexivity].
  apply clear_join; [reflexivity|].
  unfold headLines. clear_lines.
Qed.

Lemma stampComment_clear (s : string) :
  lacks "<"%char s = true -> clear rootTag (stampComment s) = true.
Proof. intro Hs. unfold stampComment. clear_lines. Qed.

Lemma occurrences_rootTag_document (a t s : string) :
  lacks "<"%char t = true -> lacks "<"%char s = true ->
  occurrences rootTag (htmlDocument a t s) = S (occurrences rootTag a).
Proof.
  intros Ht Hs. unfold htmlDocument, mountPoint.
  rewrite (clear_occurrences rootTag (docHead t)) by now apply docHead_clear.
  rewrite !append_assoc.
  change rootTag with (String "<"%char (drop 1 rootTag)) at 1 2.
  rewrite occurrences_self by reflexivity.
  change (String "<"%char (drop 1 rootTag)) with rootTag.
  rewrite (occurrences_app_mark "<"%char (drop 1 rootTag)) by (reflexivity || (right; eexists; reflexivity)).
  change (String "<"%char (drop 1 rootTag)) with rootTag.
  assert (H0 : occurrences rootTag ("</div>" ++ stampGap ++ stampComment s ++ docTail) = 0).
  { rewrite <- (append_nil_r docTail).
    rewrite (clear_occurrences rootTag "</div>") by reflexivity.
    rewrite (clear_occurrences rootTag stampGap) by reflexivity.
    rewrite (clear_occurrences rootTag (stampComment s)) by now apply stampComment_clear.
    rewrite (clear_occurrences rootTag docTail) by reflexivity.
    reflexivity. }
  rewrite H0. lia.
Qed.

(** *** The content of the mount point *)

Lemma option_map_id (o : option string) : option_map (append EmptyString) o = o.
Proof. now destruct o. Qed.

Lemma option_map_cons (c : ascii) (a : string) (o : option string) :
  option_map (String c) (option_map (append a) o) = option_map (append (String c a)) o.
Proof. now destruct o. Qed.

(** Reading balanced markup leaves the reader where it was, before a text
    that starts with a tag. *)
Lemma divContent_app (a b : string) (d d' : nat) :
  divDepth d a = Some d' ->
  (b = EmptyString \/ exists b', b = String "<"%char b') ->
  divContent d (a ++ b) = option_map (append a) (divContent d' b).
Proof.
  intros Ha Hb. revert d Ha. induction a as [|c a IH]; intros d Ha.
  - simpl in Ha. injection Ha as <-. simpl. now rewrite option_map_id.
  - change (String c a ++ b) with (String c (a ++ b)).
    cbn [divContent divDepth] in Ha |- *.
    assert (Hclose : String.prefix "</div>" (String c (a ++ b))
                     = String.prefix "</div>" (String c a)).
    { change "</div>" with (String "<"%char "/div>"). rewrite !prefix_cons.
      destruct (Ascii.eqb "<" c); [|reflexivity].
      now apply (prefix_app_mark "<"%char "/div>"). }
    assert (Hopen : String.prefix "<div" (String c (a ++ b))
                    = String.prefix "<div" (String c a)).
    { change "<div" with (String "<"%char "div"). rewrite !prefix_cons.
      destruct (Ascii.eqb "<" c); [|reflexivity].
      now apply (prefix_app_mark "<"%char "div"). }
    rewrite Hclose, Hopen.
    destruct (String.prefix "</div>" (String c a)).
    + destruct d as [|d]; [discriminate|].
      rewrite (IH d Ha). apply option_map_cons.
    + destruct (String.prefix "<div" (String c a));
        rewrite (IH _ Ha); apply option_map_cons.
Qed.

Lemma mountPointContent_document (a t s : string) :
  lacks "<"%char t = true -> divBalanced a ->
  mountPointContent (htmlDocument a t s) = Some a.
Proof.
  intros Ht Ha. unfold mountPointContent, htmlDocument, mountPoint.
  rewrite (clear_after rootTag (docHead t)) by now apply docHead_clear.
  rewrite !append_assoc.
  change rootTag with (String "<"%char (drop 1 rootTag)) at 1 2.
  rewrite after_self.
  rewrite (divContent_app a _ 0 0 Ha) by (right; eexists; reflexivity).
  simpl. now rewrite append_nil_r.
Qed.

End TemplateFacts.

Import TemplateFacts.

(** ** Claims about the template *)

(** C6.  For the markup [<p>X</p>] and the title [T], at any time, the
    text of the [title] element of the document is exactly [T], and the
    inner content of the mount point is exactly [<p>X</p>]: the markup is
    written as given, without escaping. *)
Theorem renderTemplate_title_and_markup (now : Date) :
  let doc := renderTemplate "<p>X</p>" (Some "T") now in
  titleText doc = Some "T" /\ mountPointContent doc = Some "<p>X</p>".
Proof.
  intro doc. subst doc. rewrite renderTemplate_document.
  generalize (toISOString now) as stamp. intro stamp.
  split; vm_compute; reflexivity.
Qed.

(** C7.  Two documents assembled from the same markup and title are the
    same text around the time stamp: the head, the mount point holding the
    markup, and the gap before the stamp comment depend on the inputs only,
    and the stamp stands in a comment after the mount point is closed.  For
    balanced markup and a title without an angle bracket, the content read
    back from the mount point is the markup, whatever the time. *)
Theorem renderTemplate_differs_in_stamp_only
    (appHtml : string) (title : option string) (d1 d2 : Date) :
  let t := match title with Some x => x | None => defaultTitle end in
  let pre := docHead t ++ mountPoint appHtml ++ stampGap in
  renderTemplate appHtml title d1 = pre ++ stampComment (toISOString d1) ++ docTail
  /\ renderTemplate appHtml title d2 = pre ++ stampComment (toISOString d2) ++ docTail
  /\ (lacks "<"%char t = true -> divBalanced appHtml ->
      mountPointContent (renderTemplate appHtml title d1) = Some appHtml
      /\ mountPointContent (renderTemplate appHtml title d2) = Some appHtml).
Proof.
  intros t pre. subst pre.
  assert (Hdoc : forall d, renderTemplate appHtml title d
                           = htmlDocument appHtml t (toISOString d))
    by (intro d; apply renderTemplate_document).
  repeat split.
  - rewrite Hdoc. unfold htmlDocument. now rewrite !append_assoc.
  - rewrite Hdoc. unfold htmlDocument. now rewrite !append_assoc.
  - rewrite Hdoc. now apply mountPointContent_document.
  - rewrite Hdoc. now apply mountPointContent_document.
Qed.

(* ================================================================== *)
(** * The render server *)

Module ServerFacts.

Import Server.

(** The calls of a request whose render returns, with their results. *)
Lemma handle_trace_returned (w : World) (req : Request) (appHtml : string) :
  render w (StaticRouter (url req) App) = Returned appHtml ->
  trace w (handle req)
  = [ EvDateNow (clock w 0);
      EvLog (LF ++ "📥 收到请求: " ++ url req);
      EvLog "🔄 开始服务端渲染...";
      EvRender (StaticRouter (url req) App) (Returned appHtml);
      EvDateNow (clock w 4);
      EvLog ("✅ 渲染完成，耗时: " ++ ofZ (clock w 4 - clock w 0) ++ "ms");
      EvLog ("📝 HTML 长度: " ++ ofZ (Z.of_nat (jsLength appHtml)) ++ " 字符");
      EvNewDate (mkDate (clock w 7));
      EvSend 200 (renderTemplate appHtml (Some pageTitle) (mkDate (clock w 7)));
      EvLog ("📤 响应已发送" ++ LF) ].
Proof.
  intro H. unfold trace, handle.
  cbn [run bind dateNow consoleLog renderToString fst].
  rewrite H.
  cbn [run bind dateNow newDate consoleLog resSend fst].
  reflexivity.
Qed.



(** The error page is a fixed frame around the message, and no template
    document: it opens with a line feed, a template document with its
    doctype. *)
Lemma errorPage_frame (msg : string) : errorPage msg = errorPageHead ++ msg ++ errorPageTail.
Proof.
  unfold errorPage, errorPageHead, errorPageTail.
  cbn [join]. rewrite !append_assoc. reflexivity.
Qed.


End ServerFacts.

Import Server ServerFacts.

(** ** Claims about the render server *)

(** C1.  For a request whose render returns markup that does not itself
    hold the opening tag of the mount point, the handler sends one response:
    status 200, with a body that opens with the doctype and closes the
    [html] element, holds the opening tag of the mount point exactly once,
    and has the rendered markup, as returned, as the content of the mount
    point. *)
Theorem handle_renders_into_mount_point (w : World) (req : Request) (appHtml : string) :
  render w (StaticRouter (url req) App) = Returned appHtml ->
  occurrences rootTag appHtml = 0 ->
  exists body,
    sent (trace w (handle req)) = [(200, body)]
    /\ startsWith body "<!DOCTYPE html>" = true
    /\ endsWith body "</html>" = true
    /\ occurrences rootTag body = 1
    /\ body = docHead pageTitle ++ mountPoint appHtml ++ stampGap
              ++ stampComment (toISOString (mkDate (clock w 7))) ++ docTail
    /\ (divBalanced appHtml -> mountPointContent body = Some appHtml).
Proof.
  intros Hr H0.
  exists (renderTemplate appHtml (Some pageTitle) (mkDate (clock w 7))).
  rewrite (handle_trace_returned w req appHtml Hr).
  rewrite renderTemplate_document.
  destruct (document_complete appHtml pageTitle (toISOString (mkDate (clock w 7))))
    as [Hs He].
  repeat split; try assumption; try reflexivity.
  - rewrite occurrences_rootTag_document, H0;
      [reflexivity | reflexivity | apply lacks_lt_toISOString].
  - intro Hb. now apply mountPointContent_document.
Qed.



(* ================================================================== *)
(** * Rendering on the server and in the browser *)

Module ReactDomFacts.

(** Two markups built from the same pieces are the same text. *)
Ltac markup_eq :=
  f_equal; unfold appMarkup;
  repeat (progress (simpl; rewrite ?append_nil_r, ?append_assoc));
  reflexivity.

Section Render.

Variable matchPath : string -> string -> bool.
Variable renderView : View -> option Location -> Environment -> outcome string.
Variable env : Environment.

(** The 404 page renders to its markup under every router context. *)
Lemma renderElement_NotFound (loc : option Location) :
  renderElement matchPath renderView env loc NotFound = Returned notFoundMarkup.
Proof. reflexivity. Qed.

(** [App] is its header, the selected page and its footer; the first of
    them that throws ends the render. *)
Lemma renderElement_App (l : Location) :
  renderElement matchPath renderView env (Some l) App
  = match renderView Header (Some l) env with
    | Thrown err => Thrown err
    | Returned header =>
        match selected matchPath renderView env notFoundMarkup l with
        | Thrown err => Thrown err
        | Returned page =>
            match renderView Footer (Some l) env with
            | Thrown err => Thrown err
            | Returned footer => Returned (appMarkup header page footer)
            end
        end
    end.
Proof.
  unfold App, routes, selected.
  cbn [renderElement isText andb].
  destruct (renderView Header (Some l) env) as [header|]; [|reflexivity].
  rewrite renderElement_NotFound.
  destruct (matchPath "/" (pathname l)).
  { destruct (renderView Home (Some l) env); [|reflexivity].
    destruct (renderView Footer (Some l) env); [markup_eq | reflexivity]. }
  destruct (matchPath "/about" (pathname l)).
  { destruct (renderView About (Some l) env); [|reflexivity].
    destruct (renderView Footer (Some l) env); [markup_eq | reflexivity]. }
  destruct (matchPath "/counter" (pathname l)).
  { destruct (renderView Counter (Some l) env); [|reflexivity].
    destruct (renderView Footer (Some l) env); [markup_eq | reflexivity]. }
  destruct (matchPath "*" (pathname l));
    (destruct (renderView Footer (Some l) env); [markup_eq | reflexivity]).
Qed.

End Render.

(** *** The pathname the static router reads *)








(** *** The mount point's opening tag in the markup of [App] *)

Lemma occurrences_rootTag_appMarkup (header page footer : string) :
  occurrences rootTag header = 0 ->
  occurrences rootTag page = 0 ->
  occurrences rootTag footer = 0 ->
  occurrences rootTag (appMarkup header page footer) = 0.
Proof.
  intros Hh Hp Hf. unfold appMarkup.
  assert (Hmark : forall a b : string,
             (exists b', b = String "<"%char b') ->
             occurrences rootTag (a ++ b) = occurrences rootTag a + occurrences rootTag b).
  { intros a b Hb.
    apply (occurrences_app_mark "<"%char (drop 1 rootTag) a b); [reflexivity | now right]. }
  rewrite (clear_occurrences rootTag "<div class=") by reflexivity.
  rewrite (clear_occurrences rootTag dq) by reflexivity.
  rewrite (clear_occurrences rootTag "app") by reflexivity.
  rewrite (clear_occurrences rootTag dq) by reflexivity.
  rewrite (clear_occurrences rootTag ">") by reflexivity.
  rewrite (Hmark header) by (eexists; reflexivity).
  rewrite (clear_occurrences rootTag "<main>") by reflexivity.
  rewrite (Hmark page) by (eexists; reflexivity).
  rewrite (clear_occurrences rootTag "</main>") by reflexivity.
  rewrite (Hmark footer) by (eexists; reflexivity).
  rewrite Hh, Hp, Hf. reflexivity.
Qed.

End ReactDomFacts.

Import ReactDomFacts.

(** ** The claim about the fallback page *)


(** When every view renders, at every location, to markup without the
    opening tag of the mount point, every request is answered with status
    200 and a document that holds that tag exactly once. *)
Corollary handle_every_path
    (matchPath : string -> string -> bool)
    (views : View -> option Location -> Environment -> outcome string)
    (env : Environment) (w : World) :
  (forall el, render w el = renderRoot matchPath views env el) ->
  (forall v l, exists m,
      views v (Some l) env = Returned m /\ occurrences rootTag m = 0) ->
  forall req, exists appHtml,
    sent (trace w (handle req))
    = [(200, renderTemplate appHtml (Some pageTitle) (mkDate (clock w 7)))]
    /\ occurrences rootTag (renderTemplate appHtml (Some pageTitle) (mkDate (clock w 7))) = 1.
Proof.
  intros Hw Hviews req.
  set (l := staticLocation (url req)).
  destruct (Hviews Header l) as (header & Hh & Hh0).
  destruct (Hviews Footer l) as (footer & Hf & Hf0).
  assert (Hpage : exists page,
             selected matchPath views env notFoundMarkup l = Returned page
             /\ occurrences rootTag page = 0).
  { unfold selected.
    destruct (matchPath "/" (pathname l)); [apply Hviews|].
    destruct (matchPath "/about" (pathname l)); [apply Hviews|].
    destruct (matchPath "/counter" (pathname l)); [apply Hviews|].
    destruct (matchPath "*" (pathname l)); eexists; split; reflexivity. }
  destruct Hpage as (page & Hp & Hp0).
  exists (appMarkup header page footer).
  assert (Hr : render w (StaticRouter (url req) App)
               = Returned (appMarkup header page footer)).
  { rewrite Hw. unfold renderRoot. cbn [renderElement].
    fold l. rewrite renderElement_App. now rewrite Hh, Hp, Hf. }
  rewrite (handle_trace_returned w req _ Hr). split; [reflexivity|].
  rewrite renderTemplate_document, occurrences_rootTag_document;
    [|reflexivity | apply lacks_lt_toISOString].
  now rewrite occurrences_rootTag_appMarkup.
Qed.

(* ================================================================== *)
(** * The browser entry *)

Import Client.

(** The calls of the entry file, by the result of [hydrateRoot]. *)
Lemma bootstrap_run (w : World) :
  let container := document w "root" in
  let r := hydrate w container (BrowserRouter App) in
  run w 0 bootstrap
  = match r with
    | Thrown e =>
        ([EvGetElementById "root" container;
          EvHydrateRoot container (BrowserRouter App) (Thrown e)],
         Thrown e)
    | Returned u =>
        ([EvGetElementById "root" container;
          EvHydrateRoot container (BrowserRouter App) (Returned u);
          EvLog (repeat "=" 50);
          EvLog "🎉 React 水合（Hydration）完成！";
          EvLog (repeat "=" 50);
          EvLog (LF ++ "【水合过程说明】");
          EvLog ("1. 找到 id=" ++ dq ++ "root" ++ dq ++ " 的 DOM 元素");
          EvLog "2. 复用服务端渲染的 HTML";
          EvLog "3. 绑定事件处理器";
          EvLog "4. 执行 useEffect 副作用";
          EvLog ("5. 页面现在完全可交互！" ++ LF)],
         Returned tt)
    end.
Proof.
  intros container r. subst container r. unfold bootstrap.
  cbn [run bind getElementById hydrateRoot].
  destruct (hydrate w (document w "root") (BrowserRouter App)); reflexivity.
Qed.

(** C9, as amended.  The entry file does not look at what [getElementById]
    returned.  Without a mount point it calls [hydrateRoot] once, with the
    null container, and reports no failure of its own.  When that call
    throws, the evaluation of the module ends with the exception, after
    these two calls and before any message; when it returns, the completion
    messages are written as on a page that has its mount point. *)
Theorem bootstrap_without_mount_point (w : World) :
  document w "root" = None ->
  hydrateCalls (trace w bootstrap) = [(None, BrowserRouter App)]
  /\ errorsLogged (trace w bootstrap) = []
  /\ (forall e, hydrate w None (BrowserRouter App) = Thrown e ->
        run w 0 bootstrap
        = ([EvGetElementById "root" None;
            EvHydrateRoot None (BrowserRouter App) (Thrown e)],
           Thrown e))
  /\ (forall u, hydrate w None (BrowserRouter App) = Returned u ->
        length (logged (trace w bootstrap)) = 9
        /\ snd (run w 0 bootstrap) = Returned tt).
Proof.
  intro Hdoc. unfold trace.
  pose proof (bootstrap_run w) as Hrun. cbv zeta in Hrun.
  rewrite Hdoc in Hrun. rewrite Hrun.
  destruct (hydrate w None (BrowserRouter App)) as [u|e].
  - repeat split; try reflexivity. intros e He. discriminate He.
  - repeat split; try reflexivity.
    + intros e' He. now injection He as <-.
    + discriminate.
    + discriminate.
Qed.


(** ** The claim about the two renders *)


(* ================================================================== *)
(** * The JSON route *)

Import ApiHello.

(** C8.  When the body parses to the object that has [name] equal to
    [test], POST answers 201 and the [received.name] of its payload is
    [test]; when the body does not parse, POST answers 400 and its payload
    has an [error] member. *)
Theorem POST_echoes_or_rejects
    (parseJson : string -> option json) (url garbled : string) (now : Date) :
  parseJson nameTestBody = Some (JObject [("name", JString "test")]) ->
  parseJson garbled = None ->
  let ok := POST parseJson (mkRequest url nameTestBody) now in
  let bad := POST parseJson (mkRequest url garbled) now in
  status ok = 201
  /\ match field "received" (payload ok) with
     | Some received => field "name" received = Some (JString "test")
     | None => False
     end
  /\ status bad = 400
  /\ field "error" (payload bad) = Some (JString "无效的 JSON 数据").
Proof.
  intros Hok Hbad ok bad. subst ok bad. unfold POST. cbn [body].
  rewrite Hok, Hbad. repeat split.
Qed.

(** C10, as amended.  GET answers every request with status 200 and a
    greeting.  Without a [name] parameter, and with an empty one, it greets
    [World]; with a [name] parameter whose value [X] is not empty, it
    greets [X]. *)
Theorem GET_greeting
    (searchParamsOf : string -> list (string * string)) (request : Request) (now : Date) :
  let response := GET searchParamsOf request now in
  let name := get "name" (searchParamsOf (ApiHello.url request)) in
  status response = 200
  /\ (name = None -> field "message" (payload response) = Some (JString "Hello, World!"))
  /\ (name = Some EmptyString ->
      field "message" (payload response) = Some (JString "Hello, World!"))
  /\ (forall X, name = Some X -> X <> EmptyString ->
      field "message" (payload response) = Some (JString ("Hello, " ++ X ++ "!"))).
Proof.
  intros response name. subst response name. unfold GET.
  cbn [status payload Response_json field lookup String.eqb Ascii.eqb Bool.eqb].
  repeat split.
  - intros ->. reflexivity.
  - intros ->. reflexivity.
  - intros X -> HX. unfold orElse.
    destruct (String.eqb_spec X EmptyString) as [->|_]; [now elim HX | reflexivity].
Qed.

(* ================================================================== *)
(** * The claims at concrete inputs *)


(** They render at every location, to markup without the opening tag of
    the mount point: the demo server answers every path with status 200. *)
Lemma reference_views_render (v : View) (l : Location) :
  exists m, Reference.renderView v (Some l) (serverEnv 1000 0) = Returned m
            /\ occurrences rootTag m = 0.
Proof.
  destruct v; try (eexists; split; vm_compute; reflexivity).
  unfold Reference.renderView, Reference.HeaderElement, Reference.navItems.
  cbn [map].
  destruct (String.eqb (pathname l) "/"), (String.eqb (pathname l) "/about"),
    (String.eqb (pathname l) "/counter");
    eexists; split; vm_compute; reflexivity.
Qed.

Example demoServer_every_path (path : string) :
  exists appHtml,
    sent (trace Reference.demoServer (handle (Server.mkRequest path)))
    = [(200, renderTemplate appHtml (Some pageTitle) (mkDate 1007))].
Proof.
  destruct (handle_every_path Reference.matchPath Reference.renderView (serverEnv 1000 0)
              Reference.demoServer (fun el => eq_refl) reference_views_render
              (Server.mkRequest path)) as (appHtml & Hsent & _).
  now exists appHtml.
Qed.

(** C1 at [/about?x] on the demo server. *)
Lemma handle_renders_into_mount_point_witness :
  render Reference.demoServer (StaticRouter (Server.url (Server.mkRequest "/about?x")) App)
  = Returned Reference.aboutMarkup
  /\ occurrences rootTag Reference.aboutMarkup = 0
  /\ exists body,
      sent (trace Reference.demoServer (handle (Server.mkRequest "/about?x"))) = [(200, body)]
      /\ startsWith body "<!DOCTYPE html>" = true
      /\ endsWith body "</html>" = true
      /\ occurrences rootTag body = 1
      /\ body = docHead pageTitle ++ mountPoint Reference.aboutMarkup ++ stampGap
                ++ stampComment (toISOString (mkDate (clock Reference.demoServer 7))) ++ docTail
      /\ (divBalanced Reference.aboutMarkup ->
          mountPointContent body = Some Reference.aboutMarkup).
Proof.
  split; [vm_compute; reflexivity|].
  split; [vm_compute; reflexivity|].
  apply (handle_renders_into_mount_point Reference.demoServer (Server.mkRequest "/about?x")
           Reference.aboutMarkup); vm_compute; reflexivity.
Defined.

(** The attribute text alone occurs once more, in a comment of the
    template. *)
Example id_attribute_text_twice :
  occurrences ("id=" ++ dq ++ "root" ++ dq)
    (renderTemplate Reference.aboutMarkup (Some pageTitle) (mkDate 1007)) = 2.
Proof. vm_compute. reflexivity. Qed.

(** The markup of the demo server is balanced. *)
Example aboutMarkup_balanced : divBalanced Reference.aboutMarkup.
Proof. vm_compute. reflexivity. Qed.


(** A header that prints the clock is no pure view, and the two renders of
    it differ. *)
Example impure_view_mismatch :
  renderRoot Reference.matchPath Reference.clockHeader (serverEnv 1000 7)
    (StaticRouter "/about" App)
  <> renderRoot Reference.matchPath Reference.clockHeader
       (browserEnv (mkLocation "/about" EmptyString EmptyString) 2000 9) (BrowserRouter App).
Proof. vm_compute. discriminate. Qed.




(** The content read back from the mount point of that response is [App]
    around the 404 page. *)
Example not_found_mount_point :
  match sent (trace Reference.demoServer (handle (Server.mkRequest "/no/such/page"))) with
  | [(200, body)] =>
      mountPointContent body
      = Some (appMarkup Reference.strayHeader notFoundMarkup Reference.footerMarkup)
  | _ => False
  end.
Proof. vm_compute. reflexivity. Qed.

(** C9 fails on a page without a mount point: the entry file calls
    [hydrateRoot] all the same, and writes nothing to the console. *)
Lemma bootstrap_hydrates_without_mount_point :
  document Reference.emptyPage "root" = None
  /\ hydrateCalls (trace Reference.emptyPage bootstrap) = [(None, BrowserRouter App)]
  /\ hydrateCalls (trace Reference.emptyPage bootstrap) <> []
  /\ logged (trace Reference.emptyPage bootstrap) = []
  /\ errorsLogged (trace Reference.emptyPage bootstrap) = [].
Proof. repeat split; try reflexivity. discriminate. Qed.

(** C9, as amended, on that page. *)
Lemma bootstrap_without_mount_point_witness :
  document Reference.emptyPage "root" = None
  /\ (hydrateCalls (trace Reference.emptyPage bootstrap) = [(None, BrowserRouter App)]
      /\ errorsLogged (trace Reference.emptyPage bootstrap) = []
      /\ (forall e, hydrate Reference.emptyPage None (BrowserRouter App) = Thrown e ->
            run Reference.emptyPage 0 bootstrap
            = ([EvGetElementById "root" None;
                EvHydrateRoot None (BrowserRouter App) (Thrown e)],
               Thrown e))
      /\ (forall u, hydrate Reference.emptyPage None (BrowserRouter App) = Returned u ->
            length (logged (trace Reference.emptyPage bootstrap)) = 9
            /\ snd (run Reference.emptyPage 0 bootstrap) = Returned tt)).
Proof.
  split; [reflexivity|].
  apply (bootstrap_without_mount_point Reference.emptyPage). reflexivity.
Defined.

(** On a page that has its mount point the entry file hydrates it and
    writes the completion messages. *)
Example bootstrap_with_mount_point :
  hydrateCalls (trace Reference.renderedPage bootstrap)
  = [(Some (mkNode "root" "<div class=app></div>"), BrowserRouter App)]
  /\ length (logged (trace Reference.renderedPage bootstrap)) = 9.
Proof. split; reflexivity. Qed.

(** C8 with the reference parser, for a body that is cut short. *)
Lemma POST_echoes_or_rejects_witness :
  Reference.parseJson nameTestBody = Some (JObject [("name", JString "test")])
  /\ Reference.parseJson ("{" ++ dq ++ "name" ++ dq ++ ":") = None
  /\ (status (POST Reference.parseJson
                (mkRequest "http://localhost:3000/api/hello" nameTestBody) (mkDate 0)) = 201
      /\ match field "received"
                (payload (POST Reference.parseJson
                            (mkRequest "http://localhost:3000/api/hello" nameTestBody)
                            (mkDate 0))) with
         | Some received => field "name" received = Some (JString "test")
         | None => False
         end
      /\ status (POST Reference.parseJson
                   (mkRequest "http://localhost:3000/api/hello" ("{" ++ dq ++ "name" ++ dq ++ ":"))
                   (mkDate 0)) = 400
      /\ field "error"
           (payload (POST Reference.parseJson
                       (mkRequest "http://localhost:3000/api/hello"
                          ("{" ++ dq ++ "name" ++ dq ++ ":"))
                       (mkDate 0)))
         = Some (JString "无效的 JSON 数据")).
Proof.
  split; [vm_compute; reflexivity|].
  split; [vm_compute; reflexivity|].
  apply (POST_echoes_or_rejects Reference.parseJson "http://localhost:3000/api/hello"
           ("{" ++ dq ++ "name" ++ dq ++ ":") (mkDate 0)); vm_compute; reflexivity.
Defined.

(** C10 fails for an empty name: [?name=] is greeted as [World], not with
    the empty name. *)
Lemma GET_empty_name_is_World :
  get "name" (Reference.searchParamsOf "http://localhost:3000/api/hello?name=")
  = Some EmptyString
  /\ field "message"
       (payload (GET Reference.searchParamsOf
                   (mkRequest "http://localhost:3000/api/hello?name=" EmptyString) (mkDate 0)))
     = Some (JString "Hello, World!")
  /\ field "message"
       (payload (GET Reference.searchParamsOf
                   (mkRequest "http://localhost:3000/api/hello?name=" EmptyString) (mkDate 0)))
     <> Some (JString ("Hello, " ++ EmptyString ++ "!")).
Proof. repeat split; try (vm_compute; reflexivity). vm_compute. discriminate. Qed.

(** GET with a name, with an encoded name and without a query. *)
Example GET_examples :
  field "message"
    (payload (GET Reference.searchParamsOf
                (mkRequest "http://localhost:3000/api/hello?name=Ada" EmptyString) (mkDate 0)))
  = Some (JString "Hello, Ada!")
  /\ field "message"
       (payload (GET Reference.searchParamsOf
                   (mkRequest "http://localhost:3000/api/hello?name=A%20B" EmptyString) (mkDate 0)))
     = Some (JString "Hello, A B!")
  /\ field "message"
       (payload (GET Reference.searchParamsOf
                   (mkRequest "http://localhost:3000/api/hello" EmptyString) (mkDate 0)))
     = Some (JString "Hello, World!").
Proof. repeat split; vm_compute; reflexivity. Qed.

(* ================================================================== *)
(** * Further properties of the code *)

Import Reading.

(** ** More facts about texts *)

Module ReadingFacts.

Lemma before_self (pat x : string) : before pat (pat ++ x) = Some EmptyString.
Proof.
  destruct pat as [|c p]; [now destruct x|].
  cbn [append before]. change (String c (p ++ x)) with (String c p ++ x).
  now rewrite prefix_self.
Qed.

(** A text that is clear of [pat] is passed over by the search for it. *)
Lemma clear_before (pat a x : string) :
  clear pat a = true -> before pat (a ++ x) = option_map (append a) (before pat x).
Proof.
  induction a as [|c a IH]; intro H.
  - simpl. now destruct (before pat x).
  - simpl in H. apply andb_true_iff in H. destruct H as [Hm Hc].
    change (String c a ++ x) with (String c (a ++ x)).
    cbn [before]. change (String c (a ++ x)) with (String c a ++ x).
    rewrite (mismatch_prefix pat (String c a) x Hm).
    change (String c a ++ x) with (String c (a ++ x)). cbn iota.
    rewrite (IH Hc). now destruct (before pat x).
Qed.

Lemma clear_none (c : ascii) (q a : string) :
  clear (String c q) a = true -> occurrences (String c q) a = 0.
Proof.
  intro H. rewrite <- (append_nil_r a), clear_occurrences by exact H. reflexivity.
Qed.

(** What is read between [opening] and [closing], when the text before
    [opening] is clear of it and [x] is clear of [closing]. *)
Lemma between_framed (c d : ascii) (p q a x rest : string) :
  clear (String c p) a = true ->
  clear (String d q) x = true ->
  between (String c p) (String d q) (a ++ String c p ++ x ++ String d q ++ rest) = Some x.
Proof.
  intros Ha Hx. unfold between.
  rewrite clear_after by exact Ha.
  rewrite after_self.
  rewrite clear_before by exact Hx.
  rewrite before_self. cbn [option_map]. now rewrite append_nil_r.
Qed.

(** *** The depth of [div]s across a concatenation *)

Lemma divDepth_app (a b : string) (d d' : nat) :
  divDepth d a = Some d' -> tagged b -> divDepth d (a ++ b) = divDepth d' b.
Proof.
  intros Ha Hb. revert d Ha. induction a as [|c a IH]; intros d Ha.
  - simpl in Ha. now injection Ha as <-.
  - change (String c a ++ b) with (String c (a ++ b)).
    cbn [divDepth] in Ha |- *.
    assert (Hclose : String.prefix "</div>" (String c (a ++ b))
                     = String.prefix "</div>" (String c a)).
    { change "</div>" with (String "<"%char "/div>"). rewrite !prefix_cons.
      destruct (Ascii.eqb "<" c); [|reflexivity].
      now apply (prefix_app_mark "<"%char "/div>"). }
    assert (Hopen : String.prefix "<div" (String c (a ++ b))
                    = String.prefix "<div" (String c a)).
    { change "<div" with (String "<"%char "div"). rewrite !prefix_cons.
      destruct (Ascii.eqb "<" c); [|reflexivity].
      now apply (prefix_app_mark "<"%char "div"). }
    rewrite Hclose, Hopen.
    destruct (String.prefix "</div>" (String c a)).
    + destruct d as [|d]; [discriminate|]. now apply IH.
    + destruct (String.prefix "<div" (String c a)); now apply IH.
Qed.

Lemma divDepth_shift (a : string) (d d' : nat) :
  divDepth d a = Some d' -> divDepth (S d) a = Some (S d').
Proof.
  revert d. induction a as [|c a IH]; intros d Ha.
  - simpl in *. now injection Ha as <-.
  - cbn [divDepth] in Ha |- *.
    destruct (String.prefix "</div>" (String c a)).
    + destruct d as [|d]; [discriminate|]. now apply IH.
    + destruct (String.prefix "<div" (String c a)); now apply IH.
Qed.

(** [App] around balanced markup is balanced. *)
Lemma divBalanced_appMarkup (header page footer : string) :
  divBalanced header -> tagged header ->
  divBalanced page -> tagged page ->
  divBalanced footer -> tagged footer ->
  divBalanced (appMarkup header page footer).
Proof.
  unfold divBalanced, appMarkup. intros Hh Th Hp Tp Hf Tf.
  assert (Tend : tagged "</div>") by (right; eexists; reflexivity).
  assert (Tmain : tagged "</main>") by (right; eexists; reflexivity).
  assert (Tm : tagged "<main>") by (right; eexists; reflexivity).
  rewrite <- !append_assoc.
  rewrite (divDepth_app _ "</div>" 0 1); [reflexivity| |exact Tend].
  rewrite (divDepth_app _ footer 0 1); [now apply divDepth_shift| |exact Tf].
  rewrite (divDepth_app _ "</main>" 0 1); [reflexivity| |exact Tmain].
  rewrite (divDepth_app _ page 0 1); [now apply divDepth_shift| |exact Tp].
  rewrite (divDepth_app _ "<main>" 0 1); [reflexivity| |exact Tm].
  rewrite (divDepth_app _ header 0 1); [now apply divDepth_shift| |exact Th].
  reflexivity.
Qed.

(** *** The two places of the title in a document *)

Lemma headLines_title (t : string) :
  headLines t
  = (firstn 33 (headLines t)
     ++ ("  <title>" ++ t ++ "</title>")%string :: skipn 34 (headLines t))%list.
Proof. reflexivity. Qed.

Lemma headLines_ogTitle (t : string) :
  headLines t
  = (firstn 29 (headLines EmptyString)
     ++ ("  " ++ ogTitleOpen ++ t ++ dq ++ ">")%string :: skipn 30 (headLines t))%list.
Proof. reflexivity. Qed.

Lemma document_title (a t s : string) :
  exists rest,
    htmlDocument a t s
    = (join LF (firstn 33 (headLines t)) ++ LF ++ "  ")
      ++ "<title>" ++ t ++ "</title>" ++ rest.
Proof.
  eexists. unfold htmlDocument, docHead.
  rewrite (headLines_title t) at 1.
  rewrite join_app by discriminate.
  rewrite join_cons by discriminate.
  rewrite !append_assoc. reflexivity.
Qed.

Lemma document_ogTitle (a t s : string) :
  exists rest,
    htmlDocument a t s
    = (join LF (firstn 29 (headLines EmptyString)) ++ LF ++ "  ")
      ++ ogTitleOpen ++ t ++ dq ++ rest.
Proof.
  eexists. unfold htmlDocument, docHead.
  rewrite (headLines_ogTitle t) at 1.
  rewrite join_app by discriminate.
  rewrite join_cons by discriminate.
  rewrite !append_assoc. reflexivity.
Qed.

(** The head of a document holds no script element. *)
Lemma docHead_no_script (t : string) :
  lacks "<"%char t = true -> clear "<script" (docHead t) = true.
Proof.
  intro Ht. unfold docHead.
  apply clear_app; [|reflexivity].
  apply clear_join; [reflexivity|].
  unfold headLines. clear_lines.
Qed.

End ReadingFacts.

Import ReadingFacts.

(** ** The template *)

(** X1.  The title of a document is the title [renderTemplate] was given,
    or the default title when it was given none: for a title without an
    angle bracket, the text of the [title] element is the title, as
    written; and when the title holds no double quote either, so is the
    content of the [og:title] meta element. *)
Theorem renderTemplate_title (appHtml : string) (title : option string) (now : Date) :
  let t := match title with Some x => x | None => defaultTitle end in
  lacks "<"%char t = true ->
  titleText (renderTemplate appHtml title now) = Some t
  /\ (lacks "034"%char t = true -> ogTitle (renderTemplate appHtml title now) = Some t).
Proof.
  intros t Ht. rewrite renderTemplate_document. fold t. split.
  - destruct (document_title appHtml t (toISOString now)) as [rest ->].
    apply (between_framed "<"%char "<"%char "title>" "/title>").
    + apply clear_app; [|reflexivity].
      apply clear_join; [reflexivity|].
      cbn [headLines firstn]. clear_lines.
    + apply lacks_clear. exact Ht.
  - intro Hq.
    destruct (document_ogTitle appHtml t (toISOString now)) as [rest ->].
    apply (between_framed "<"%char "034"%char (drop 1 ogTitleOpen) EmptyString).
    + reflexivity.
    + apply lacks_clear. exact Hq.
Qed.

(** X2.  The order of the assets in a document, for a title without an
    angle bracket.  What precedes the mount point is the head of the
    template: it links the style sheet once and holds no script element.
    The only script element the template adds is the bundle, after the
    mount point: the document holds one more than the markup brings. *)
Theorem renderTemplate_assets (appHtml : string) (title : option string) (now : Date) :
  let t := match title with Some x => x | None => defaultTitle end in
  let doc := renderTemplate appHtml title now in
  lacks "<"%char t = true ->
  before rootTag doc = Some (docHead t)
  /\ occurrences "<script" (docHead t) = 0
  /\ occurrences stylesheetLink (docHead t) = 1
  /\ occurrences "<script" doc = S (occurrences "<script" appHtml).
Proof.
  intros t doc Ht. subst doc. rewrite renderTemplate_document. fold t.
  pose proof (docHead_no_script t Ht) as Hhead.
  repeat split.
  - unfold htmlDocument, mountPoint.
    rewrite clear_before by now apply docHead_clear.
    rewrite !append_assoc, before_self. cbn [option_map]. now rewrite append_nil_r.
  - now apply (clear_none "<"%char "script").
  - assert (Hsplit : docHead t
                     = join LF (firstn 34 (headLines t))
                       ++ (LF ++ join LF (skipn 34 (headLines EmptyString)) ++ LF ++ "  ")).
    { unfold docHead.
      change (headLines t)
        with (firstn 34 (headLines t) ++ skipn 34 (headLines EmptyString))%list at 1.
      rewrite join_app by discriminate. now rewrite !append_assoc. }
    rewrite Hsplit.
    rewrite clear_occurrences; [vm_compute; reflexivity|].
    apply clear_join; [reflexivity|]. cbn [headLines firstn]. clear_lines.
  - unfold htmlDocument, mountPoint.
    rewrite clear_occurrences by exact Hhead.
    rewrite !append_assoc.
    rewrite (clear_occurrences "<script" rootTag) by reflexivity.
    rewrite (occurrences_app_mark "<"%char "script" appHtml)
      by (reflexivity || (right; eexists; reflexivity)).
    rewrite (clear_occurrences "<script" "</div>") by reflexivity.
    rewrite (clear_occurrences "<script" stampGap) by reflexivity.
    rewrite (clear_occurrences "<script" (stampComment _)).
    2:{ unfold stampComment. apply clear_app; [reflexivity|].
        apply clear_app; [|reflexivity].
        apply lacks_clear, lacks_lt_toISOString. }
    replace (occurrences "<script" docTail) with 1 by (vm_compute; reflexivity).
    lia.
Qed.

(** ** The error page *)

Lemma errorPage_occurrences (q msg : string) :
  lacks "<"%char q = true ->
  clear (String "<"%char q) errorPageHead = true ->
  occurrences (String "<"%char q) errorPageTail = 0 ->
  occurrences (String "<"%char q) (errorPage msg) = occurrences (String "<"%char q) msg.
Proof.
  intros Hq Hh Ht. rewrite errorPage_frame.
  rewrite clear_occurrences by exact Hh.
  rewrite (occurrences_app_mark "<"%char q msg errorPageTail)
    by (exact Hq || (right; eexists; reflexivity)).
  rewrite Ht. lia.
Qed.

(** X3.  The error page of the [catch] block is static: it has a mount
    point, a script element or a link element only where the message of
    the error brings one.  The message is written as it is, without
    escaping: a message without an angle bracket is the text of the [pre]
    element. *)
Theorem errorPage_static (msg : string) :
  occurrences rootTag (errorPage msg) = occurrences rootTag msg
  /\ occurrences "<script" (errorPage msg) = occurrences "<script" msg
  /\ occurrences "<link" (errorPage msg) = occurrences "<link" msg
  /\ (lacks "<"%char msg = true -> between "<pre>" "</pre>" (errorPage msg) = Some msg).
Proof.
  repeat split.
  - apply (errorPage_occurrences (drop 1 rootTag)); reflexivity.
  - apply (errorPage_occurrences "script"); reflexivity.
  - apply (errorPage_occurrences "link"); reflexivity.
  - intro Hm. rewrite errorPage_frame.
    change errorPageHead
      with (substring 0 (String.length errorPageHead - 5) errorPageHead ++ "<pre>").
    change errorPageTail with ("</pre>" ++ drop 6 errorPageTail).
    rewrite append_assoc.
    apply (between_framed "<"%char "<"%char "pre>" "/pre>"); [reflexivity|].
    apply lacks_clear. exact Hm.
Qed.

(** ** The browser entry *)


(** X4.  In every browser, the entry file hydrates once, [App] in a
    browser router, into whatever [getElementById] returned; it renders
    nothing to a string, sends nothing and reports no error of its own.
    It writes its nine messages when [hydrateRoot] returns, and none when
    [hydrateRoot] throws: then the exception ends the module. *)
Theorem bootstrap_hydrates_once (w : World) :
  let tr := trace w bootstrap in
  hydrateCalls tr = [(document w "root", BrowserRouter App)]
  /\ renderCalls tr = []
  /\ sent tr = []
  /\ errorsLogged tr = []
  /\ match hydrate w (document w "root") (BrowserRouter App) with
     | Returned _ => length (logged tr) = 9 /\ snd (run w 0 bootstrap) = Returned tt
     | Thrown e => logged tr = [] /\ snd (run w 0 bootstrap) = Thrown e
     end.
Proof.
  intro tr. subst tr. unfold trace.
  pose proof (bootstrap_run w) as Hrun. cbv zeta in Hrun. rewrite Hrun.
  destruct (hydrate w (document w "root") (BrowserRouter App)); repeat split.
Qed.

(** ** The components *)

Import Pages Browser.

Module PagesFacts.

(** Every view of the application renders, at every location and in every
    environment; its markup is balanced, starts with a tag, does not hold
    the opening tag of the mount point, and depends on the pathname only. *)
Ltac view_markup :=
  eexists; split; [vm_compute; reflexivity|];
  split; [vm_compute; reflexivity|];
  split; [vm_compute; reflexivity|];
  split; [right; eexists; reflexivity|].

Lemma views_render (v : View) (l : Location) (env : Environment) :
  exists m,
    views v (Some l) env = Returned m
    /\ occurrences rootTag m = 0
    /\ divBalanced m
    /\ tagged m
    /\ forall l' env', pathname l' = pathname l -> views v (Some l') env' = Returned m.
Proof.
  destruct v.
  - unfold views, HeaderJsx, isActive, navItems. cbn [map fst snd].
    destruct (String.eqb (pathname l) "/") eqn:E1,
             (String.eqb (pathname l) "/about") eqn:E2,
             (String.eqb (pathname l) "/counter") eqn:E3;
      (view_markup; intros l' env' Hp; rewrite Hp, E1, E2, E3; vm_compute; reflexivity).
  - view_markup. intros l' env' Hp. vm_compute. reflexivity.
  - view_markup. intros l' env' Hp. vm_compute. reflexivity.
  - view_markup. intros l' env' Hp. vm_compute. reflexivity.
  - view_markup. intros l' env' Hp. vm_compute. reflexivity.
Qed.

(** So does [App] around them, whatever the routes match. *)
Lemma app_render (matchPath : string -> string -> bool) (l : Location) (env : Environment) :
  exists appHtml,
    renderElement matchPath views env (Some l) App = Returned appHtml
    /\ occurrences rootTag appHtml = 0
    /\ divBalanced appHtml
    /\ forall l' env', pathname l' = pathname l ->
         renderElement matchPath views env' (Some l') App = Returned appHtml.
Proof.
  destruct (views_render Header l env) as (header & Hh & Hh0 & Hhb & Hht & Hh').
  destruct (views_render Footer l env) as (footer & Hf & Hf0 & Hfb & Hft & Hf').
  assert (Hpage : exists page,
             selected matchPath views env notFoundMarkup l = Returned page
             /\ occurrences rootTag page = 0 /\ divBalanced page /\ tagged page
             /\ forall l' env', pathname l' = pathname l ->
                  selected matchPath views env' notFoundMarkup l' = Returned page).
  { unfold selected.
    destruct (matchPath "/" (pathname l)) eqn:E1.
    { destruct (views_render Home l env) as (m & H1 & H2 & H3 & H4 & H5).
      exists m. repeat split; try assumption.
      intros l' env' Hp. rewrite Hp, E1. now apply H5. }
    destruct (matchPath "/about" (pathname l)) eqn:E2.
    { destruct (views_render About l env) as (m & H1 & H2 & H3 & H4 & H5).
      exists m. repeat split; try assumption.
      intros l' env' Hp. rewrite Hp, E1, E2. now apply H5. }
    destruct (matchPath "/counter" (pathname l)) eqn:E3.
    { destruct (views_render Counter l env) as (m & H1 & H2 & H3 & H4 & H5).
      exists m. repeat split; try assumption.
      intros l' env' Hp. rewrite Hp, E1, E2, E3. now apply H5. }
    destruct (matchPath "*" (pathname l)) eqn:E4.
    - exists notFoundMarkup. repeat split; try reflexivity.
      + right. eexists. reflexivity.
      + intros l' env' Hp. now rewrite Hp, E1, E2, E3, E4.
    - exists EmptyString. repeat split; try reflexivity.
      + now left.
      + intros l' env' Hp. now rewrite Hp, E1, E2, E3, E4. }
  destruct Hpage as (page & Hp & Hp0 & Hpb & Hpt & Hp').
  exists (appMarkup header page footer).
  split; [rewrite renderElement_App; now rewrite Hh, Hp, Hf|].
  split; [now apply occurrences_rootTag_appMarkup|].
  split; [now apply divBalanced_appMarkup|].
  intros l' env' Hpath. rewrite renderElement_App.
  now rewrite (Hh' l' env' Hpath), (Hp' l' env' Hpath), (Hf' l' env' Hpath).
Qed.


End PagesFacts.

Import PagesFacts.

(** X5.  The header renders at every location, with its three links.  A
    link is active when the pathname is its path, character for character:
    the header has one active link, the one to the pathname, when the
    pathname is one of the three paths, and none otherwise. *)
Theorem header_active_link (l : Location) (env : Environment) :
  exists m,
    views Header (Some l) env = Returned m
    /\ occurrences "<a " m = 3
    /\ occurrences activeClass m
       = (if existsb (isActive l) (map fst navItems) then 1 else 0)
    /\ forall path, In path (map fst navItems) ->
         occurrences (activeLink path) m = if isActive l path then 1 else 0.
Proof.
  unfold views, HeaderJsx, isActive, navItems. cbn [map fst snd existsb In].
  destruct (String.eqb (pathname l) "/") eqn:E1,
           (String.eqb (pathname l) "/about") eqn:E2,
           (String.eqb (pathname l) "/counter") eqn:E3;
    try (apply String.eqb_eq in E1; rewrite E1 in E2, E3; discriminate);
    try (apply String.eqb_eq in E2; rewrite E2 in E3; discriminate);
    (eexists; split; [vm_compute; reflexivity|];
     split; [vm_compute; reflexivity|];
     split; [vm_compute; reflexivity|];
     intros path [<-|[<-|[<-|[]]]]; rewrite ?E1, ?E2, ?E3; vm_compute; reflexivity).
Qed.

(** The router ignores a trailing slash, the header does not: at [/about/]
    the page is the about page and no link is active. *)
Example header_trailing_slash :
  Reference.matchPath "/about" "/about/" = true
  /\ exists m,
       views Header (Some (staticLocation "/about/")) (serverEnv 0 0) = Returned m
       /\ occurrences activeClass m = 0.
Proof. split; [reflexivity|]. eexists. split; vm_compute; reflexivity. Qed.

(** X6.  A server whose React renders the components of the application
    answers every request with status 200, whatever the URL and whatever
    the routes match: no component throws, no error is logged.  The
    document holds the opening tag of the mount point once (the about page
    shows that tag as text, escaped), and the content read back from the
    mount point is the markup that was rendered. *)
Theorem app_answers_every_path
    (matchPath : string -> string -> bool) (env : Environment) (w : World) :
  (forall el, render w el = renderRoot matchPath views env el) ->
  forall req, exists appHtml,
    let body := renderTemplate appHtml (Some pageTitle) (mkDate (clock w 7)) in
    render w (StaticRouter (Server.url req) App) = Returned appHtml
    /\ sent (trace w (handle req)) = [(200, body)]
    /\ errorsLogged (trace w (handle req)) = []
    /\ occurrences rootTag body = 1
    /\ mountPointContent body = Some appHtml.
Proof.
  intros Hw req.
  destruct (app_render matchPath (staticLocation (Server.url req)) env)
    as (appHtml & Hr & H0 & Hb & _).
  exists appHtml. cbv zeta.
  assert (Hrender : render w (StaticRouter (Server.url req) App) = Returned appHtml).
  { rewrite Hw. exact Hr. }
  rewrite (handle_trace_returned w req appHtml Hrender).
  rewrite renderTemplate_document.
  split; [exact Hrender|]. split; [reflexivity|]. split; [reflexivity|].
  split.
  - rewrite occurrences_rootTag_document by (reflexivity || apply lacks_lt_toISOString).
    now rewrite H0.
  - now apply mountPointContent_document.
Qed.


(** ** The counter *)

Import CounterRun.

Module CounterFacts.

Lemma sliceLast_snoc {A : Type} (n : nat) (l : list A) (x : A) :
  sliceLast (S n) (l ++ [x]) = (sliceLast n l ++ [x])%list.
Proof.
  unfold sliceLast. rewrite length_app. cbn [length].
  replace (length l + 1 - S n) with (length l - n) by lia.
  rewrite skipn_app.
  replace (length l - n - length l) with 0 by lia. reflexivity.
Qed.

Lemma sliceLast_sliceLast {A : Type} (n m : nat) (l : list A) :
  n <= m -> sliceLast n (sliceLast m l) = sliceLast n l.
Proof.
  intro H. unfold sliceLast. rewrite length_skipn, skipn_skipn. f_equal. lia.
Qed.

Lemma length_sliceLast {A : Type} (n : nat) (l : list A) : length (sliceLast n l) <= n.
Proof. unfold sliceLast. rewrite length_skipn. lia. Qed.

Lemma play_snoc (acts : list action) (a : action) : play (acts ++ [a]) = step (play acts) a.
Proof. unfold play. now rewrite fold_left_app. Qed.

Lemma sinceReset_snoc (acts : list action) (a : action) :
  sinceReset (acts ++ [a])
  = match a with Reset => [] | _ => (sinceReset acts ++ [a])%list end.
Proof. unfold sinceReset. now rewrite fold_left_app. Qed.

Lemma length_sinceReset (acts : list action) : length (sinceReset acts) <= length acts.
Proof.
  induction acts as [|a acts IH] using rev_ind; [reflexivity|].
  rewrite sinceReset_snoc, length_app. cbn [length].
  destruct a; try rewrite length_app; cbn [length]; lia.
Qed.

Lemma total_snoc (l : list Z) (x : Z) : total (l ++ [x]) = (total l + x)%Z.
Proof.
  unfold total. induction l as [|y l IH]; cbn [fold_right app]; [lia|]. rewrite IH. lia.
Qed.

Lemma total_changes_bound (acts : list action) :
  (Z.abs (total (map change acts)) <= Z.of_nat (length acts))%Z.
Proof.
  induction acts as [|a acts IH]; [cbn; lia|].
  cbn [map length]. unfold total in *. cbn [fold_right].
  destruct a; cbn [change]; lia.
Qed.

(** The count stays within the bounds between which a step is exact. *)
Lemma count_in_range (acts : list action) :
  (- maxCount <= count (play acts) <= maxCount)%Z.
Proof.
  induction acts as [|a acts IH] using rev_ind; [vm_compute; split; discriminate|].
  rewrite play_snoc.
  destruct a; cbn [step mount increment decrement reset count]; try exact IH.
  - unfold plusOne. destruct (Z.eqb_spec (count (play acts)) maxCount); lia.
  - unfold minusOne. destruct (Z.eqb_spec (count (play acts)) (- maxCount)); lia.
  - vm_compute. split; discriminate.
Qed.

End CounterFacts.

Import CounterFacts.

(** X8.  The history of the counter after any run of mounts, clicks and
    resets: it is the records of the clicks since the last reset, the last
    five of them when there are more, in the order of the clicks; it never
    holds more than five records. *)
Theorem counter_history (acts : list action) :
  clickHistory (play acts) = sliceLast 5 (flat_map record (sinceReset acts))
  /\ length (clickHistory (play acts)) <= 5.
Proof.
  assert (H : clickHistory (play acts) = sliceLast 5 (flat_map record (sinceReset acts))).
  { induction acts as [|a acts IH] using rev_ind; [reflexivity|].
    rewrite play_snoc, sinceReset_snoc.
    destruct a; cbn [step mount increment decrement reset clickHistory].
    - rewrite flat_map_app. cbn [flat_map record]. now rewrite app_nil_r.
    - rewrite flat_map_app. cbn [flat_map record app].
      now rewrite sliceLast_snoc, IH, sliceLast_sliceLast by lia.
    - rewrite flat_map_app. cbn [flat_map record app].
      now rewrite sliceLast_snoc, IH, sliceLast_sliceLast by lia.
    - reflexivity. }
  split; [exact H|]. rewrite H. apply length_sliceLast.
Qed.

(** X9.  The count after a run of at most 2^53 actions is the number of
    increments less the number of decrements since the last reset; it may
    be negative.  (A longer run can bring the count to 2^53, where one
    more increment leaves it as it is.) *)
Theorem counter_count (acts : list action) :
  (Z.of_nat (length acts) <=? maxCount)%Z = true ->
  count (play acts) = total (map change (sinceReset acts)).
Proof.
  induction acts as [|a acts IH] using rev_ind; intro Hlen; [reflexivity|].
  apply Z.leb_le in Hlen.
  rewrite length_app in Hlen. cbn [length] in Hlen.
  rewrite play_snoc, sinceReset_snoc.
  pose proof (total_changes_bound (sinceReset acts)) as Hb.
  pose proof (length_sinceReset acts) as Hl.
  assert (IH' : count (play acts) = total (map change (sinceReset acts)))
    by (apply IH, Z.leb_le; lia).
  destruct a; cbn [step mount increment decrement reset count].
  - rewrite map_app. cbn [map change]. rewrite total_snoc, IH'. lia.
  - rewrite map_app. cbn [map change]. rewrite total_snoc, IH'.
    unfold plusOne. destruct (Z.eqb_spec (total (map change (sinceReset acts))) maxCount); lia.
  - rewrite map_app. cbn [map change]. rewrite total_snoc, IH'.
    unfold minusOne.
    destruct (Z.eqb_spec (total (map change (sinceReset acts))) (- maxCount)); lia.
  - reflexivity.
Qed.

(** ** The caller of the JSON route *)

Import ApiDemo.

Module ApiDemoFacts.









End ApiDemoFacts.

Import ApiDemoFacts.


(* ================================================================== *)
(** * The further properties at concrete inputs *)

(** X1 for a title with an ampersand and a space. *)
Lemma renderTemplate_title_witness :
  lacks "<"%char "Tom & Jerry" = true
  /\ (titleText (renderTemplate "<p>X</p>" (Some "Tom & Jerry") (mkDate 0))
      = Some "Tom & Jerry"
      /\ (lacks "034"%char "Tom & Jerry" = true ->
          ogTitle (renderTemplate "<p>X</p>" (Some "Tom & Jerry") (mkDate 0))
          = Some "Tom & Jerry")).
Proof.
  split; [reflexivity|].
  apply (renderTemplate_title "<p>X</p>" (Some "Tom & Jerry") (mkDate 0)). reflexivity.
Defined.

(** Without a title, the document has the default one. *)
Example renderTemplate_default_title :
  titleText (renderTemplate "<p>X</p>" None (mkDate 0)) = Some "React SSR Demo".
Proof. vm_compute. reflexivity. Qed.

(** X2 for markup that brings a script element of its own. *)
Lemma renderTemplate_assets_witness :
  lacks "<"%char pageTitle = true
  /\ (before rootTag (renderTemplate "<script>1</script>" (Some pageTitle) (mkDate 0))
      = Some (docHead pageTitle)
      /\ occurrences "<script" (docHead pageTitle) = 0
      /\ occurrences stylesheetLink (docHead pageTitle) = 1
      /\ occurrences "<script" (renderTemplate "<script>1</script>" (Some pageTitle) (mkDate 0))
         = S (occurrences "<script" "<script>1</script>")).
Proof.
  split; [reflexivity|].
  apply (renderTemplate_assets "<script>1</script>" (Some pageTitle) (mkDate 0)). reflexivity.
Defined.

(** X6 for the application server and a request of the counter page. *)
Lemma app_answers_every_path_witness :
  (forall el, render (appServer 1000) el
              = renderRoot Reference.matchPath views (serverEnv 1000 0) el)
  /\ exists appHtml,
       let body := renderTemplate appHtml (Some pageTitle) (mkDate (clock (appServer 1000) 7)) in
       render (appServer 1000)
         (StaticRouter (Server.url (Server.mkRequest "/counter?from=home")) App)
       = Returned appHtml
       /\ sent (trace (appServer 1000) (handle (Server.mkRequest "/counter?from=home")))
          = [(200, body)]
       /\ errorsLogged (trace (appServer 1000) (handle (Server.mkRequest "/counter?from=home")))
          = []
       /\ occurrences rootTag body = 1
       /\ mountPointContent body = Some appHtml.
Proof.
  split; [reflexivity|].
  apply (app_answers_every_path Reference.matchPath (serverEnv 1000 0) (appServer 1000)).
  reflexivity.
Defined.


(** A run of the counter: a mount, three clicks, a reset and a click. *)
Example counter_run :
  play [Mount; Increment "10:00:00"; Decrement "10:00:01"; Decrement "10:00:02";
        Reset; Decrement "10:00:03"]
  = mkCounterState (-1) true ["-1 @ 10:00:03"].
Proof. reflexivity. Qed.

(** X9 for that run. *)
Lemma counter_count_witness :
  (Z.of_nat (length [Mount; Increment "10:00:00"; Decrement "10:00:01";
                     Decrement "10:00:02"; Reset; Decrement "10:00:03"])
   <=? maxCount)%Z = true
  /\ count (play [Mount; Increment "10:00:00"; Decrement "10:00:01";
                  Decrement "10:00:02"; Reset; Decrement "10:00:03"])
     = total (map change
                (sinceReset [Mount; Increment "10:00:00"; Decrement "10:00:01";
                             Decrement "10:00:02"; Reset; Decrement "10:00:03"])).
Proof.
  split; [reflexivity|].
  apply (counter_count [Mount; Increment "10:00:00"; Decrement "10:00:01";
                        Decrement "10:00:02"; Reset; Decrement "10:00:03"]).
  reflexivity.
Defined.

(** At the bound, one more increment changes nothing. *)
Example counter_saturates :
  count (increment "10:00:00" (mkCounterState maxCount true [])) = maxCount.
Proof. reflexivity. Qed.


(** The request [callApi] sends for that name, and the answer to an empty
    name. *)
Example callApi_examples :
  fst (request (fun _ => EmptyString) (mkDate 0) (mkState None false "GET" "Zoë & co? #1"))
  = "/api/hello?name=Zo%C3%AB%20%26%20co%3F%20%231"
  /\ field "message"
       (data (answer
                (served "http://localhost:3000" Reference.searchParamsOf Reference.parseJson
                   (mkDate 0))
                (fun _ => EmptyString) (mkDate 0) (mkState None false "GET" EmptyString)))
     = Some (JString "Hello, World!").
Proof. split; vm_compute; reflexivity. Qed.
